(** * comfforts/logger: a shallow embedding and its verified properties

    The development follows the Go package [logger]:
    - [GoStrings], [Filepath]: the parts of the Go standard library the
      package calls ([strings.TrimSpace], [strings.ToLower],
      [filepath.Join]), on byte strings;
    - [Slog], [Zap]: the observable part of the logging back ends
      (handler kind, threshold, writer, what a write does to the outputs);
    - the package itself: [defaultConfig], [build], [Init], the
      get-logger entry points, the context carrier, [NewAppLogger];
    - [Legacy]: the earlier revision of [logger.go], which has no
      singleton and compares [INFRA] byte for byte. *)

From Stdlib Require Import String Ascii List Bool NArith ZArith Lia.
From stdpp Require Import base option gmap strings list.
Import ListNotations.

Open Scope string_scope.

(* ===================================================================== *)
(** ** Go strings *)
(* ===================================================================== *)

Module GoStrings.

(** A Go string is a sequence of bytes; [string] is used as such. *)

Definition byte (a : ascii) : N := N_of_ascii a.

(** [asciiSpace] of package strings: tab, LF, VT, FF, CR and space. *)
Definition asciiSpace (a : ascii) : bool :=
  let x := byte a in
  ((9 <=? x) && (x <=? 13) || (x =? 32))%N.

(** The UTF-8 encodings of the other code points for which
    [unicode.IsSpace] holds: U+0085 and U+00A0 on two bytes; U+1680,
    U+2000..U+200A, U+2028, U+2029, U+202F, U+205F and U+3000 on
    three. *)
Definition space2 (a b : ascii) : bool :=
  ((byte a =? 194) && ((byte b =? 133) || (byte b =? 160)))%N.

Definition space3 (a b c : ascii) : bool :=
  let '(x, y, z) := (byte a, byte b, byte c) in
  ((x =? 225) && (y =? 154) && (z =? 128)
   || (x =? 226) && (y =? 128)
      && ((128 <=? z) && (z <=? 138) || (z =? 168) || (z =? 169) || (z =? 175))
   || (x =? 226) && (y =? 129) && (z =? 159)
   || (x =? 227) && (y =? 128) && (z =? 128))%N.

(** [strings.TrimLeftFunc(s, unicode.IsSpace)]: drop leading runes
    while they are white space. *)
Fixpoint trimLeft (s : list ascii) : list ascii :=
  match s with
  | a :: r =>
      if asciiSpace a then trimLeft r
      else match r with
           | b :: r2 =>
               if space2 a b then trimLeft r2
               else match r2 with
                    | c :: r3 => if space3 a b c then trimLeft r3 else s
                    | [] => s
                    end
           | [] => s
           end
  | [] => []
  end.

(** [strings.TrimRightFunc(s, unicode.IsSpace)], on the reversed
    bytes: the last rune of [s] is decoded from its final one, two or
    three bytes. *)
Fixpoint trimRightRev (s : list ascii) : list ascii :=
  match s with
  | a :: r =>
      if asciiSpace a then trimRightRev r
      else match r with
           | b :: r2 =>
               if space2 b a then trimRightRev r2
               else match r2 with
                    | c :: r3 => if space3 c b a then trimRightRev r3 else s
                    | [] => s
                    end
           | [] => s
           end
  | [] => []
  end.

(** [strings.TrimSpace]: its ASCII fast path and its Unicode slow path
    return the same slice, the string without leading and trailing
    white space. *)
Definition TrimSpace (s : string) : string :=
  string_of_list_ascii
    (rev (trimRightRev (rev (trimLeft (list_ascii_of_string s))))).

Definition lowerByte (a : ascii) : ascii :=
  let x := byte a in
  if ((65 <=? x) && (x <=? 90))%N then ascii_of_N (x + 32) else a.

(** [strings.ToLower]. Bytes 'A'..'Z' are mapped to 'a'..'z'. Go maps
    the letters outside ASCII through the Unicode case tables, which
    are not reproduced here: those bytes are kept. The package only
    compares the result with ASCII words that contain neither i nor k
    (the two ASCII letters that some letter outside ASCII lowers to), so
    every such comparison has the outcome it has in Go. *)
Fixpoint ToLower (s : string) : string :=
  match s with
  | EmptyString => EmptyString
  | String a r => String (lowerByte a) (ToLower r)
  end.

End GoStrings.

(* ===================================================================== *)
(** ** path/filepath, with the Unix separator *)
(* ===================================================================== *)

Module Filepath.

Definition isSlash (a : ascii) : bool := (N_of_ascii a =? 47)%N.

(** The elements of a path between separators; [cur] is the element
    being read. *)
Fixpoint splitFrom (cur : string) (s : string) : list string :=
  match s with
  | EmptyString => [cur]
  | String a r =>
      if isSlash a then cur :: splitFrom "" r
      else splitFrom (cur ++ String a "") r
  end.

Definition split (s : string) : list string := splitFrom "" s.

(** The loop of [filepath.Clean], element by element; [out] holds the
    elements written so far, last one first. An empty element and [.]
    are skipped; [..] removes the last written element when that one is
    a name, is written when the path is not rooted, and is dropped at
    the root. *)
Fixpoint cleanLoop (rooted : bool) (elems : list string) (out : list string)
  : list string :=
  match elems with
  | [] => rev out
  | e :: es =>
      if (e =? "") || (e =? ".") then cleanLoop rooted es out
      else if e =? ".." then
        match out with
        | o :: out' =>
            if o =? ".." then cleanLoop rooted es (e :: out)
            else cleanLoop rooted es out'
        | [] =>
            if rooted then cleanLoop rooted es []
            else cleanLoop rooted es [e]
        end
      else cleanLoop rooted es (e :: out)
  end.

Definition rootedPath (path : string) : bool :=
  match path with
  | String a _ => isSlash a
  | EmptyString => false
  end.

Definition Clean (path : string) : string :=
  if path =? "" then "."
  else
    let rooted := rootedPath path in
    let out := cleanLoop rooted (split path) [] in
    if rooted then "/" ++ String.concat "/" out
    else match out with
         | [] => "."
         | _ => String.concat "/" out
         end.

(** [filepath.Join]: the elements from the first non-empty one on,
    joined by the separator and cleaned; the empty string when there is
    none. *)
Fixpoint Join (elem : list string) : string :=
  match elem with
  | [] => ""
  | e :: rest =>
      if e =? "" then Join rest else Clean (String.concat "/" elem)
  end.

(** A path element that [Clean] keeps as it is: not empty, without a
    separator, neither [.] nor [..]. *)
Fixpoint noSlash (s : string) : bool :=
  match s with
  | EmptyString => true
  | String a r => negb (isSlash a) && noSlash r
  end.

Definition isName (e : string) : bool :=
  noSlash e && negb (e =? "") && negb (e =? ".") && negb (e =? "..").

(** An element that [Clean] keeps or skips: a name, the empty element
    (a doubled or trailing separator) or [.]. *)
Definition nameOrSkipped (e : string) : bool :=
  isName e || (e =? "") || (e =? ".").

End Filepath.

(* ===================================================================== *)
(** ** io, lumberjack and log/slog: what the package can observe *)
(* ===================================================================== *)

Module Slog.

(** [lumberjack.Logger], the rotating file writer, as configured. *)
Record lumberjackLogger := {
  Filename : string;
  MaxSize : Z;
  MaxBackups : Z;
  MaxAge : Z;
  Compress : bool
}.

(** The [io.Writer] values the package handles. [External] stands for
    a writer supplied by a caller. *)
#[local] Set Warnings "-register-all".
Inductive Writer :=
| Stdout
| Discard
| Lumberjack (l : lumberjackLogger)
| multiWriter (writers : list Writer)
| External (name : string).

(** [io.MultiWriter]: a multi-writer among the arguments is replaced by
    its writers. *)
Definition MultiWriter (writers : list Writer) : Writer :=
  multiWriter
    (flat_map (fun w => match w with
                        | multiWriter ws => ws
                        | _ => [w]
                        end) writers).

(** [slog.Level] is an integer. *)
Definition Level := Z.
Definition LevelDebug : Level := (-4)%Z.
Definition LevelInfo : Level := 0%Z.
Definition LevelWarn : Level := 4%Z.
Definition LevelError : Level := 8%Z.

(** A [slog.Leveler]; [None] is the nil interface value. The level of
    a [*slog.LevelVar] is the one it was last set to. *)
Definition Leveler := option Level.

Inductive HandlerKind := JSONHandler | TextHandler.

(** A [*slog.Logger] with its handler: the encoder, the writer and the
    [HandlerOptions]. *)
Record Logger := {
  kind : HandlerKind;
  writer : Writer;
  level : Leveler;
  addSource : bool;
  attrs : list string
}.

Definition NewJSONHandler (w : Writer) (lv : Leveler) (src : bool) : Logger :=
  {| kind := JSONHandler; writer := w; level := lv; addSource := src;
     attrs := [] |}.

Definition NewTextHandler (w : Writer) (lv : Leveler) (src : bool) : Logger :=
  {| kind := TextHandler; writer := w; level := lv; addSource := src;
     attrs := [] |}.

(** What the process has written: standard output and standard error
    line by line, and the contents of the files. *)
Record Output := {
  stdout : list string;
  stderr : list string;
  files : gmap string (list string)
}.

Definition noOutput : Output :=
  {| stdout := []; stderr := []; files := ∅ |}.

Definition println (line : string) (o : Output) : Output :=
  {| stdout := (stdout o ++ [line])%list; stderr := stderr o; files := files o |}.

(** The handler's threshold: [LevelInfo] when no level is given. *)(** The handler's threshold: [LevelInfo] when no level is given. *)
Definition Enabled (l : Logger) (lv : Level) : bool :=
  (default LevelInfo (level l) <=? lv)%Z.

(** The encoders are not part of the package; a record is rendered as
    its level and message only. *)
Definition render (l : Logger) (lv : Level) (msg : string) : string :=
  (match kind l with JSONHandler => "json " | TextHandler => "text " end)
  ++ (if (lv <? LevelInfo)%Z then "DEBUG "
      else if (lv <? LevelWarn)%Z then "INFO "
      else if (lv <? LevelError)%Z then "WARN " else "ERROR ")
  ++ msg.

Section Sinks.

(** What one [Write] call on a rotating file writer, or on a writer of
    the caller, does to the outputs, and the error it returns if any (a
    short write counts as one): rotation, the refusal of a record larger
    than a file, a path that cannot be made are lumberjack's and the
    file system's, not the package's. *)
Variable sink : Writer -> string -> Output -> Output * option string.

(** One [Write] call. Standard output takes the line and [io.Discard]
    drops it; a multi-writer writes to its writers in order and stops
    at the first that returns an error. *)
Fixpoint write (w : Writer) (line : string) (o : Output)
  : Output * option string :=
  match w with
  | Stdout => (println line o, None)
  | Discard => (o, None)
  | multiWriter ws =>
      (fix each (ws : list Writer) (o : Output) : Output * option string :=
         match ws with
         | [] => (o, None)
         | w' :: rest =>
             match write w' line o with
             | (o', None) => each rest o'
             | (o', Some e) => (o', Some e)
             end
         end) ws o
  | Lumberjack _ | External _ => sink w line o
  end.

(** A logging call: the record goes to the writer in one [Write] when
    the level is enabled; the error of the handler is dropped. *)
Definition log (lv : Level) (l : Logger) (msg : string) (o : Output) : Output :=
  if Enabled l lv then (write (writer l) (render l lv msg) o).1 else o.

Definition Debug := log LevelDebug.
Definition Info := log LevelInfo.
Definition Warn := log LevelWarn.
Definition Error := log LevelError.

End Sinks.

End Slog.

(** A call either returns or panics. *)
Inductive outcome (A : Type) :=
| Returns (a : A)
| Panics.
Arguments Returns {A} a.
Arguments Panics {A}.

Definition error := string.

(* ===================================================================== *)
(** ** Package logger: the slog facade *)
(* ===================================================================== *)

Definition DEFAULT_LOG_FILE_PATH : string := "logs/app.log".
Definition NO_LOGGER_FOUND : string := "no logger found in context".
Definition ErrNoLoggerInContext : error := NO_LOGGER_FOUND.

(** The process environment; [os.Getenv] gives the empty string for a
    variable that is not set. *)
Definition Getenv (env : gmap string string) (name : string) : string :=
  default "" (env !! name).

Record Config := {
  Level : Slog.Leveler;
  Format : string;
  Writer : Slog.Writer;
  AddSource : bool
}.

(** [Option], a function that updates the configuration it is given. *)
Definition Option := Config -> Config.

Definition WithLevel (level : Slog.Leveler) : Option :=
  fun c => {| Level := level; Format := Format c; Writer := Writer c;
              AddSource := AddSource c |}.

Definition WithFormat (format : string) : Option :=
  fun c => {| Level := Level c; Format := format; Writer := Writer c;
              AddSource := AddSource c |}.

Definition WithWriter (w : Slog.Writer) : Option :=
  fun c => {| Level := Level c; Format := Format c; Writer := w;
              AddSource := AddSource c |}.

Definition WithAddSource (add : bool) : Option :=
  fun c => {| Level := Level c; Format := Format c; Writer := Writer c;
              AddSource := add |}.

Definition build (c : Config) : option Slog.Logger * option error :=
  let h :=
    let f := GoStrings.ToLower (GoStrings.TrimSpace (Format c)) in
    if f =? "json" then Slog.NewJSONHandler (Writer c) (Level c) (AddSource c)
    else if (f =? "text") || (f =? "console")
    then Slog.NewTextHandler (Writer c) (Level c) (AddSource c)
    else Slog.NewJSONHandler (Writer c) (Level c) (AddSource c) in
  (Some h, None).

Definition defaultConfig (environ : gmap string string) : Config :=
  let env := GoStrings.ToLower (GoStrings.TrimSpace (Getenv environ "ENV")) in
  let goEnv := GoStrings.ToLower (GoStrings.TrimSpace (Getenv environ "GO_ENV")) in
  let infra := GoStrings.ToLower (GoStrings.TrimSpace (Getenv environ "INFRA")) in
  let dev := (env =? "dev") || (env =? "development") || (goEnv =? "dev")
             || (goEnv =? "development") || (infra =? "local") in
  {| Level := Some (if dev then Slog.LevelDebug else Slog.LevelInfo);
     Format := if dev then "text" else "json";
     Writer := Slog.Stdout;
     AddSource := true |}.

(** The package variables [once], [base] and [initErr], slog's default
    logger ([None] until [slog.SetDefault] is called), the outputs, and
    a count of the runs of the construction function. *)
Record State := {
  onceDone : bool;
  base : option Slog.Logger;
  initErr : option error;
  slogDefault : option Slog.Logger;
  output : Slog.Output;
  builds : nat
}.

Definition initial : State :=
  {| onceDone := false; base := None; initErr := None; slogDefault := None;
     output := Slog.noOutput; builds := 0 |}.

Definition SetDefault (l : Slog.Logger) (s : State) : State :=
  {| onceDone := onceDone s; base := base s; initErr := initErr s;
     slogDefault := Some l; output := output s; builds := builds s |}.

Definition printlns (lines : list string) (s : State) : State :=
  {| onceDone := onceDone s; base := base s; initErr := initErr s;
     slogDefault := slogDefault s;
     output := fold_left (fun o l => Slog.println l o) lines (output s);
     builds := builds s |}.

(** The four [fmt] calls of the fallback branch. *)
Definition fallbackNotice (err : error) : list string :=
  [ "######";
    "Error occured, fallback logger initialized, logger will discard logs, error: "
      ++ err;
    "######";
    "" ].

(** [slog.New(slog.NewTextHandler(io.Discard, nil))]. *)
Definition discardLogger : Slog.Logger :=
  Slog.NewTextHandler Slog.Discard None false.

(** [GetFileWriter] *)
Definition GetFileWriter (dir : string) : Slog.Writer :=
  let filePath :=
    if dir =? "" then DEFAULT_LOG_FILE_PATH
    else Filepath.Join [dir; DEFAULT_LOG_FILE_PATH] in
  Slog.Lumberjack
    {| Slog.Filename := filePath; Slog.MaxSize := 100; Slog.MaxBackups := 5;
       Slog.MaxAge := 28; Slog.Compress := true |}.

Definition GetMultiWriter (dests : list Slog.Writer) : Slog.Writer :=
  Slog.MultiWriter dests.

Section Singleton.

(** The construction function is a variable of the singleton code; the
    package is the instance at [build], which returns no error on any
    configuration. *)
Variable builder : Config -> option Slog.Logger * option error.

(** [Init]: the function given to [once.Do] runs when [once] has not
    fired; [initErr] is returned in either case. *)
Definition Init (opts : list Option) (environ : gmap string string)
           (s : State) : State * option error :=
  let s' :=
    if onceDone s then s
    else
      let cfg := fold_left (fun c opt => opt c) opts (defaultConfig environ) in
      let '(l, e) := builder cfg in
      {| onceDone := true; base := l; initErr := e;
         slogDefault := slogDefault s; output := output s;
         builds := S (builds s) |} in
  (s', initErr s').

(** The part the three entry points share after [Init] has returned.
    [slog.SetDefault] reads the handler of its argument: it panics on
    a nil logger. *)
Definition afterInit (r : State * option error)
  : outcome (State * Slog.Logger) :=
  let '(s, err) := r in
  match err with
  | Some e => Returns (printlns (fallbackNotice e) s, discardLogger)
  | None =>
      match base s with
      | Some l => Returns (SetDefault l s, l)
      | None => Panics
      end
  end.

Definition GetSlogLogger (environ : gmap string string) (s : State)
  : outcome (State * Slog.Logger) :=
  match base s with
  | Some l => Returns (s, l)
  | None => afterInit (Init [] environ s)
  end.

Definition GetSlogMultiLogger (dir : string) (environ : gmap string string)
           (s : State) : outcome (State * Slog.Logger) :=
  match base s with
  | Some l => Returns (s, l)
  | None =>
      let logWriter := GetFileWriter dir in
      let multiWriter := Slog.MultiWriter [Slog.Stdout; logWriter] in
      afterInit (Init [WithWriter multiWriter] environ s)
  end.

Definition GetSlogFileLogger (dir : string) (environ : gmap string string)
           (s : State) : outcome (State * Slog.Logger) :=
  match base s with
  | Some l => Returns (s, l)
  | None =>
      let fileWriter := GetFileWriter dir in
      afterInit (Init [WithWriter fileWriter] environ s)
  end.

(** [WithAttrs]: [base.With(attrs...)]. [With] returns its receiver
    when there is no attribute and copies the receiver otherwise, which
    panics on a nil one. *)
Definition WithAttrs (attrs : list string) (s : State)
  : outcome (option Slog.Logger) :=
  match attrs with
  | [] => Returns (base s)
  | _ =>
      match base s with
      | Some l =>
          Returns (Some {| Slog.kind := Slog.kind l; Slog.writer := Slog.writer l;
                           Slog.level := Slog.level l;
                           Slog.addSource := Slog.addSource l;
                           Slog.attrs := (Slog.attrs l ++ attrs)%list |})
      | None => Panics
      end
  end.

End Singleton.

(* ===================================================================== *)
(** ** The context carrier *)
(* ===================================================================== *)

Module Context.

(** A non-nil value whose dynamic type has the four methods of the
    [Logger] interface: a [*slog.Logger] (the pointer may be nil) or a
    value of a type of the caller. *)
Inductive LoggerValue :=
| SlogLogger (l : option Slog.Logger)
| CustomLogger (name : string).

(** A value of type [any]: nil, a logger, or a value of a type that
    does not implement [Logger]. *)
Inductive any :=
| Nil
| OfLogger (l : LoggerValue)
| Other (type value : string).

(** A context key, equal to another when type and value agree. *)
Record Key := { keyType : string; keyValue : string }.

Definition keyEq (a b : Key) : bool :=
  (keyType a =? keyType b) && (keyValue a =? keyValue b).

Definition contextLoggerKey : Key :=
  {| keyType := "logger.loggerContextKey"; keyValue := "ContextLoggerKey" |}.

(** A [context.Context] is the background context or a pointer to a
    [valueCtx]; the [valueCtx] structures live in a heap, by address. *)
Inductive Context :=
| Background
| ValueCtx (addr : nat).

Record valueCtx := { parent : Context; key : Key; val : any }.

Abbreviation Heap := (list valueCtx).

(** [context.WithValue] allocates a [valueCtx] that points to its
    parent. *)
Definition WithValue (h : Heap) (ctx : Context) (k : Key) (v : any)
  : Heap * Context :=
  ((h ++ [{| parent := ctx; key := k; val := v |}])%list,
   ValueCtx (List.length h)).

(** The loop of [ctx.Value]: the nearest [valueCtx] with the key
    decides, the background context holds nothing. [None]: the walk was
    cut short, or met an address that is not allocated. *)
Fixpoint value (fuel : nat) (h : Heap) (ctx : Context) (k : Key)
  : option any :=
  match fuel with
  | O => None
  | S fuel' =>
      match ctx with
      | Background => Some Nil
      | ValueCtx a =>
          match h !! a with
          | Some c =>
              if keyEq (key c) k then Some (val c)
              else value fuel' h (parent c) k
          | None => None
          end
      end
  end.

Definition Value (h : Heap) (ctx : Context) (k : Key) : option any :=
  value (S (List.length h)) h ctx k.

(** [WithLogger]: the [Logger] argument, an interface value, is nil
    ([None]) or a logger. *)
Definition WithLogger (h : Heap) (ctx : Context) (logger : option LoggerValue)
  : Heap * Context :=
  WithValue h ctx contextLoggerKey
    (match logger with Some l => OfLogger l | None => Nil end).

(** [LoggerFromContext]: the type assertion succeeds on a non-nil
    value that implements [Logger]. *)
Definition LoggerFromContext (h : Heap) (ctx : Context)
  : option (option LoggerValue * option error) :=
  match Value h ctx contextLoggerKey with
  | Some (OfLogger l) => Some (Some l, None)
  | Some _ => Some (None, Some ErrNoLoggerInContext)
  | None => None
  end.

(** Heaps as [WithValue] builds them: a parent is allocated before its
    children. *)
Definition allocated (h : Heap) (ctx : Context) : Prop :=
  match ctx with
  | Background => True
  | ValueCtx a => a < List.length h
  end.

Definition parentsFirst (h : Heap) : Prop :=
  ∀ a c, h !! a = Some c →
         match parent c with
         | Background => True
         | ValueCtx p => p < a
         end.

(** A bound on the number of parents of a context in such a heap. *)
Definition rank (ctx : Context) : nat :=
  match ctx with
  | Background => 0
  | ValueCtx a => S a
  end.

End Context.

(* ===================================================================== *)
(** ** The zap facade *)
(* ===================================================================== *)

Module Zap.

(** [zapcore.Level] *)
Definition Level := Z.
Definition DebugLevel : Level := (-1)%Z.
Definition InfoLevel : Level := 0%Z.
Definition ErrorLevel : Level := 2%Z.

(** The two encoder configurations the package starts from; both get
    the ISO 8601 time encoder. *)
Inductive EncoderConfig :=
| ProductionEncoderConfig
| DevelopmentEncoderConfig.

Inductive Encoder :=
| JSONEncoder (cfg : EncoderConfig)
| ConsoleEncoder (cfg : EncoderConfig).

Record Core := { encoder : Encoder; sink : Slog.Writer; enab : Level }.

Record Logger := {
  cores : list Core;
  name : string;
  addCaller : bool;
  addStack : Level
}.

(** [zap.New(core, zap.AddCaller(), zap.AddStacktrace(lvl))] over a tee
    of cores *)
Definition New (cs : list Core) (stack : Level) : Logger :=
  {| cores := cs; name := ""; addCaller := true; addStack := stack |}.

Definition Named (s : string) (log : Logger) : Logger :=
  if s =? "" then log
  else {| cores := cores log;
          name := if name log =? "" then s else name log ++ "." ++ s;
          addCaller := addCaller log; addStack := addStack log |}.

End Zap.

Definition GetZapLogger (dir namedAs : string) (environ : gmap string string)
  : Zap.Logger :=
  let filePath :=
    if dir =? "" then DEFAULT_LOG_FILE_PATH
    else Filepath.Join [dir; DEFAULT_LOG_FILE_PATH] in
  let local := Getenv environ "INFRA" =? "local" in
  let logLevel := if local then Zap.DebugLevel else Zap.InfoLevel in
  let cfg := if local then Zap.DevelopmentEncoderConfig
             else Zap.ProductionEncoderConfig in
  let writer :=
    Slog.Lumberjack
      {| Slog.Filename := filePath; Slog.MaxSize := 10; Slog.MaxBackups := 3;
         Slog.MaxAge := 28; Slog.Compress := false |} in
  Zap.Named namedAs
    (Zap.New
       [ {| Zap.encoder := Zap.JSONEncoder cfg; Zap.sink := writer;
            Zap.enab := logLevel |};
         {| Zap.encoder := Zap.ConsoleEncoder cfg; Zap.sink := Slog.Stdout;
            Zap.enab := logLevel |} ]
       Zap.ErrorLevel).

Module AppLog.

Definition DEFAULT_LOG_LEVEL : Zap.Level := Zap.DebugLevel.

Record AppLoggerConfig := {
  FilePath : string;
  Name : string;
  Level : Zap.Level
}.

Record appLogger := {
  Logger : Zap.Logger;
  config : option AppLoggerConfig
}.

(** [NewAppLogger]; [config] is a pointer, [None] when nil. The read of
    [config.Name] after the logger is made is not under the nil test:
    it panics on a nil pointer. *)
Definition NewAppLogger (config : option AppLoggerConfig) : outcome appLogger :=
  let logLevel :=
    match config with
    | Some c => Level c
    | None => DEFAULT_LOG_LEVEL
    end in
  let filePath :=
    match config with
    | Some c => if FilePath c =? "" then DEFAULT_LOG_FILE_PATH else FilePath c
    | None => DEFAULT_LOG_FILE_PATH
    end in
  let cfg := Zap.ProductionEncoderConfig in
  let writer :=
    Slog.Lumberjack
      {| Slog.Filename := filePath; Slog.MaxSize := 10; Slog.MaxBackups := 3;
         Slog.MaxAge := 28; Slog.Compress := false |} in
  let logger :=
    Zap.New
      [ {| Zap.encoder := Zap.JSONEncoder cfg; Zap.sink := writer;
           Zap.enab := logLevel |};
        {| Zap.encoder := Zap.ConsoleEncoder cfg; Zap.sink := Slog.Stdout;
           Zap.enab := logLevel |} ]
      Zap.ErrorLevel in
  match config with
  | None => Panics
  | Some c =>
      Returns {| Logger := if Name c =? "" then logger
                           else Zap.Named (Name c) logger;
                 config := config |}
  end.

(** [NewTestAppLogger]: the configuration is made here, so the pointer
    kept in the result is never nil. *)
Definition NewTestAppLogger (dir : string) : appLogger :=
  let logLevel := DEFAULT_LOG_LEVEL in
  let filePath :=
    if dir =? "" then DEFAULT_LOG_FILE_PATH
    else Filepath.Join [dir; DEFAULT_LOG_FILE_PATH] in
  let logCfg := {| FilePath := filePath; Name := ""; Level := logLevel |} in
  let cfg := Zap.DevelopmentEncoderConfig in
  let writer :=
    Slog.Lumberjack
      {| Slog.Filename := FilePath logCfg; Slog.MaxSize := 10;
         Slog.MaxBackups := 3; Slog.MaxAge := 28; Slog.Compress := false |} in
  let logger :=
    Zap.Named "test"
      (Zap.New
         [ {| Zap.encoder := Zap.JSONEncoder cfg; Zap.sink := writer;
              Zap.enab := Level logCfg |};
           {| Zap.encoder := Zap.ConsoleEncoder cfg; Zap.sink := Slog.Stdout;
              Zap.enab := Level logCfg |} ]
         Zap.ErrorLevel) in
  {| Logger := logger; config := Some logCfg |}.

End AppLog.

(* ===================================================================== *)
(** ** The earlier revision of logger.go *)
(* ===================================================================== *)

Module Legacy.

(** [GetSlogLogger] builds a text logger on every call and makes it
    slog's default; the second component is the new default. *)
Definition GetSlogLogger (environ : gmap string string)
  : Slog.Logger * option Slog.Logger :=
  let logLevel :=
    if Getenv environ "INFRA" =? "local" then Slog.LevelDebug
    else Slog.LevelInfo in
  let l := Slog.NewTextHandler Slog.Stdout (Some logLevel) false in
  (l, Some l).

Definition GetSlogMultiLogger (dir : string) (environ : gmap string string)
  : Slog.Logger * option Slog.Logger :=
  let filePath :=
    if dir =? "" then DEFAULT_LOG_FILE_PATH
    else Filepath.Join [dir; DEFAULT_LOG_FILE_PATH] in
  let logLevel :=
    if Getenv environ "INFRA" =? "local" then Slog.LevelDebug
    else Slog.LevelInfo in
  let logWriter :=
    Slog.Lumberjack
      {| Slog.Filename := filePath; Slog.MaxSize := 100;
         Slog.MaxBackups := 5; Slog.MaxAge := 28; Slog.Compress := true |} in
  let multiWriter := Slog.MultiWriter [Slog.Stdout; logWriter] in
  let l := Slog.NewTextHandler multiWriter (Some logLevel) false in
  (l, Some l).

End Legacy.

(* ===================================================================== *)
(** ** Sequences of calls on the singleton *)
(* ===================================================================== *)

Inductive Call :=
| CallInit (opts : list Option)
| CallGetSlogLogger
| CallGetSlogFileLogger (dir : string)
| CallGetSlogMultiLogger (dir : string).

Inductive Result :=
| InitReturned (err : option error)
| LoggerReturned (l : Slog.Logger).

(** One call, made with the environment as it is at that time. *)
Definition call (builder : Config -> option Slog.Logger * option error)
           (c : gmap string string * Call) (s : State)
  : outcome (State * Result) :=
  let lift (r : outcome (State * Slog.Logger)) :=
    match r with
    | Returns (s', l) => Returns (s', LoggerReturned l)
    | Panics => Panics
    end in
  match c.2 with
  | CallInit opts =>
      let '(s', err) := Init builder opts c.1 s in
      Returns (s', InitReturned err)
  | CallGetSlogLogger => lift (GetSlogLogger builder c.1 s)
  | CallGetSlogFileLogger dir => lift (GetSlogFileLogger builder dir c.1 s)
  | CallGetSlogMultiLogger dir => lift (GetSlogMultiLogger builder dir c.1 s)
  end.

(** The calls of a list in order; the results come in the same order. *)
Fixpoint run (builder : Config -> option Slog.Logger * option error)
         (cs : list (gmap string string * Call)) (s : State)
  : outcome (State * list Result) :=
  match cs with
  | [] => Returns (s, [])
  | c :: rest =>
      match call builder c s with
      | Returns (s', r) =>
          match run builder rest s' with
          | Returns (s'', rs) => Returns (s'', r :: rs)
          | Panics => Panics
          end
      | Panics => Panics
      end
  end.

(* ===================================================================== *)
(** * Properties *)
(* ===================================================================== *)

(** ** Vocabulary of the statements *)

(** A value of a mode variable ([ENV], [GO_ENV]) denotes development,
    and a value of the locality variable ([INFRA]) denotes local, up to
    surrounding white space and letter case. *)
Definition normalized (v : string) : string :=
  GoStrings.ToLower (GoStrings.TrimSpace v).

Definition denotesDevelopment (v : string) : bool :=
  (normalized v =? "dev") || (normalized v =? "development").

Definition denotesLocal (v : string) : bool :=
  normalized v =? "local".

Definition developmentPosture (environ : gmap string string) : bool :=
  denotesDevelopment (Getenv environ "ENV")
  || denotesDevelopment (Getenv environ "GO_ENV")
  || denotesLocal (Getenv environ "INFRA").

(** The handler a format word stands for: structured unless the word
    asks for text. *)
Definition handlerFor (format : string) : Slog.HandlerKind :=
  if (normalized format =? "text") || (normalized format =? "console")
  then Slog.TextHandler else Slog.JSONHandler.

(** Options as a caller writes them, and the last value supplied for one
    field. *)
Inductive Supplied :=
| SuppliedLevel (level : Slog.Leveler)
| SuppliedFormat (format : string)
| SuppliedWriter (w : Slog.Writer)
| SuppliedAddSource (add : bool).

Definition toOption (o : Supplied) : Option :=
  match o with
  | SuppliedLevel l => WithLevel l
  | SuppliedFormat f => WithFormat f
  | SuppliedWriter w => WithWriter w
  | SuppliedAddSource b => WithAddSource b
  end.

Definition lastSupplied {A : Type} (sel : Supplied -> option A)
           (os : list Supplied) : option A :=
  fold_left (fun acc o => match sel o with Some x => Some x | None => acc end)
            os None.

Definition levelOf (o : Supplied) : option Slog.Leveler :=
  match o with SuppliedLevel l => Some l | _ => None end.
Definition formatOf (o : Supplied) : option string :=
  match o with SuppliedFormat f => Some f | _ => None end.
Definition writerOf (o : Supplied) : option Slog.Writer :=
  match o with SuppliedWriter w => Some w | _ => None end.
Definition addSourceOf (o : Supplied) : option bool :=
  match o with SuppliedAddSource b => Some b | _ => None end.

(** The singleton holds logger [l]: [once] has fired, with a logger and
    no error. *)
Definition ready (l : Slog.Logger) (s : State) : Prop :=
  onceDone s = true /\ base s = Some l /\ initErr s = None.

(** What a call hands back when the singleton holds [l]. *)
Definition handsBack (l : Slog.Logger) (r : Result) : Prop :=
  match r with
  | LoggerReturned l' => l' = l
  | InitReturned err => err = None
  end.

Definition isGetter (c : Call) : bool :=
  match c with
  | CallInit _ => false
  | _ => true
  end.

(** The field an option sets. *)
Definition fieldOf (o : Supplied) : nat :=
  match o with
  | SuppliedLevel _ => 0
  | SuppliedFormat _ => 1
  | SuppliedWriter _ => 2
  | SuppliedAddSource _ => 3
  end.

(** The path every file sink of the package is given. *)
Definition logFilePath (dir : string) : string :=
  if dir =? "" then "logs/app.log" else Filepath.Join [dir; "logs/app.log"].

(** A string of ASCII white space only. *)
Fixpoint allSpace (s : string) : bool :=
  match s with
  | EmptyString => true
  | String a r => GoStrings.asciiSpace a && allSpace r
  end.

(** ** The environment resolver *)

Lemma String_eqb_true (a b : string) : (a =? b) = true -> a = b.
Proof. apply String.eqb_eq. Qed.

Lemma defaultConfig_posture (environ : gmap string string) :
  defaultConfig environ =
    {| Level := Some (if developmentPosture environ then Slog.LevelDebug
                      else Slog.LevelInfo);
       Format := if developmentPosture environ then "text" else "json";
       Writer := Slog.Stdout;
       AddSource := true |}.
Proof.
  unfold defaultConfig, developmentPosture, denotesDevelopment, denotesLocal,
    normalized.
  now rewrite <- !orb_assoc.
Qed.

Lemma unset_is_empty (environ : gmap string string) (name : string) :
  environ !! name = None -> Getenv environ name = "".
Proof. unfold Getenv. now intros ->. Qed.

Lemma build_total (c : Config) :
  build c =
    (Some {| Slog.kind := handlerFor (Format c); Slog.writer := Writer c;
             Slog.level := Level c; Slog.addSource := AddSource c;
             Slog.attrs := [] |},
     None).
Proof.
  unfold build, handlerFor, normalized, Slog.NewJSONHandler, Slog.NewTextHandler.
  destruct (_ =? "json") eqn:Hj.
  - apply String_eqb_true in Hj. now rewrite Hj.
  - now destruct (_ || _).
Qed.

(** C3. With [ENV], [GO_ENV] and [INFRA] unset the resolved
    configuration is the json format at level info, and [build] makes the
    structured handler from it. When a mode variable denotes development
    or [INFRA] denotes local, it is the text format at level debug, and
    [build] makes the human-readable handler. The configuration depends
    on nothing but the values of these three variables. *)
Theorem defaultConfig_environment_derivation (environ : gmap string string) :
  (environ !! "ENV" = None -> environ !! "GO_ENV" = None ->
   environ !! "INFRA" = None ->
   Format (defaultConfig environ) = "json"
   /\ Level (defaultConfig environ) = Some Slog.LevelInfo
   /\ handlerFor (Format (defaultConfig environ)) = Slog.JSONHandler)
  /\ (denotesDevelopment (Getenv environ "ENV") = true
      \/ denotesDevelopment (Getenv environ "GO_ENV") = true
      \/ denotesLocal (Getenv environ "INFRA") = true ->
      Format (defaultConfig environ) = "text"
      /\ Level (defaultConfig environ) = Some Slog.LevelDebug
      /\ handlerFor (Format (defaultConfig environ)) = Slog.TextHandler)
  /\ (forall environ' : gmap string string,
        Getenv environ' "ENV" = Getenv environ "ENV" ->
        Getenv environ' "GO_ENV" = Getenv environ "GO_ENV" ->
        Getenv environ' "INFRA" = Getenv environ "INFRA" ->
        defaultConfig environ' = defaultConfig environ).
Proof.
  split; [| split].
  - intros He Hg Hi. rewrite defaultConfig_posture.
    unfold developmentPosture.
    rewrite (unset_is_empty _ _ He), (unset_is_empty _ _ Hg),
      (unset_is_empty _ _ Hi).
    now vm_compute.
  - intros H. rewrite defaultConfig_posture.
    assert (developmentPosture environ = true) as ->.
    { unfold developmentPosture.
      destruct H as [-> | [-> | ->]]; rewrite ?orb_true_r; reflexivity. }
    now vm_compute.
  - intros environ' He Hg Hi. unfold defaultConfig. now rewrite He, Hg, Hi.
Qed.

Lemma defaultConfig_environment_derivation_witness :
  (Format (defaultConfig ∅) = "json"
   /\ Level (defaultConfig ∅) = Some Slog.LevelInfo
   /\ handlerFor (Format (defaultConfig ∅)) = Slog.JSONHandler)
  /\ (Format (defaultConfig {[ "ENV" := " DEV " ]}) = "text"
      /\ Level (defaultConfig {[ "ENV" := " DEV " ]}) = Some Slog.LevelDebug
      /\ handlerFor (Format (defaultConfig {[ "ENV" := " DEV " ]}))
         = Slog.TextHandler)
  /\ defaultConfig {[ "INFRA" := "Local"; "HOME" := "/root" ]}
     = defaultConfig {[ "INFRA" := "Local" ]}.
Proof.
  split; [| split].
  - apply (defaultConfig_environment_derivation ∅); reflexivity.
  - apply (defaultConfig_environment_derivation {[ "ENV" := " DEV " ]}).
    left. vm_compute. reflexivity.
  - apply (defaultConfig_environment_derivation {[ "INFRA" := "Local" ]});
      vm_compute; reflexivity.
Defined.

(** ** The logger builder *)

(** C6. [build] returns a logger and no error on every configuration.
    The logger keeps the writer, the level and the source flag of the
    configuration; its handler is the structured one for the json
    format, the human-readable one for the text and console formats, and
    the structured one for any other format word, the empty one
    included. *)
Theorem build_selects_handler_never_fails (c : Config) :
  exists l : Slog.Logger,
    build c = (Some l, None)
    /\ Slog.writer l = Writer c
    /\ Slog.level l = Level c
    /\ Slog.addSource l = AddSource c
    /\ (normalized (Format c) = "json" -> Slog.kind l = Slog.JSONHandler)
    /\ (normalized (Format c) = "text" \/ normalized (Format c) = "console" ->
        Slog.kind l = Slog.TextHandler)
    /\ (normalized (Format c) <> "json" -> normalized (Format c) <> "text" ->
        normalized (Format c) <> "console" ->
        Slog.kind l = Slog.JSONHandler).
Proof.
  eexists. split; [apply build_total |]. cbn.
  repeat split; unfold handlerFor.
  - now intros ->.
  - now intros [-> | ->].
  - intros _ Ht Hc.
    apply String.eqb_neq in Ht, Hc. now rewrite Ht, Hc.
Qed.

Lemma build_selects_handler_never_fails_witness :
  (exists l, build (WithFormat " JSON " (defaultConfig ∅)) = (Some l, None)
             /\ Slog.kind l = Slog.JSONHandler)
  /\ (exists l, build (WithFormat "Console" (defaultConfig ∅)) = (Some l, None)
                /\ Slog.kind l = Slog.TextHandler)
  /\ (exists l, build (WithFormat "yaml" (defaultConfig ∅)) = (Some l, None)
                /\ Slog.kind l = Slog.JSONHandler).
Proof.
  split; [| split].
  - destruct (build_selects_handler_never_fails
                (WithFormat " JSON " (defaultConfig ∅)))
      as (l & Hb & _ & _ & _ & Hj & _ & _).
    exists l. split; [exact Hb | apply Hj; reflexivity].
  - destruct (build_selects_handler_never_fails
                (WithFormat "Console" (defaultConfig ∅)))
      as (l & Hb & _ & _ & _ & _ & Ht & _).
    exists l. split; [exact Hb | apply Ht; right; reflexivity].
  - destruct (build_selects_handler_never_fails
                (WithFormat "yaml" (defaultConfig ∅)))
      as (l & Hb & _ & _ & _ & _ & _ & Hd).
    exists l. split; [exact Hb | apply Hd; vm_compute; discriminate].
Defined.

(** ** Options over the environment *)

Lemma lastSupplied_snoc {A : Type} (sel : Supplied -> option A)
      (os : list Supplied) (o : Supplied) :
  lastSupplied sel (os ++ [o])%list =
    match sel o with
    | Some x => Some x
    | None => lastSupplied sel os
    end.
Proof. unfold lastSupplied. now rewrite fold_left_app. Qed.

(** The configuration after the loop of [Init] over the options. *)
Lemma options_applied (os : list Supplied) (c : Config) :
  fold_left (fun c (opt : Option) => opt c) (map toOption os) c =
    {| Level := default (Level c) (lastSupplied levelOf os);
       Format := default (Format c) (lastSupplied formatOf os);
       Writer := default (Writer c) (lastSupplied writerOf os);
       AddSource := default (AddSource c) (lastSupplied addSourceOf os) |}.
Proof.
  induction os as [| o os IH] using rev_ind.
  - now destruct c.
  - rewrite List.map_app, fold_left_app, IH, !lastSupplied_snoc.
    now destruct o.
Qed.

(** C4. [Init], on its first run, builds the logger from the
    configuration in which every field is the last value supplied for it
    by an option, and the value derived from the environment when no
    option supplies it. The derived writer and source flag are standard
    output and on; the derived level and format are debug and text in a
    development posture, info and json otherwise. *)
Theorem options_override_environment
        (environ : gmap string string) (os : list Supplied) :
  let derived := defaultConfig environ in
  exists l : Slog.Logger,
    base (Init build (map toOption os) environ initial).1 = Some l
    /\ Slog.level l = default (Level derived) (lastSupplied levelOf os)
    /\ Slog.kind l =
         handlerFor (default (Format derived) (lastSupplied formatOf os))
    /\ Slog.writer l = default (Writer derived) (lastSupplied writerOf os)
    /\ Slog.addSource l =
         default (AddSource derived) (lastSupplied addSourceOf os)
    /\ Writer derived = Slog.Stdout
    /\ AddSource derived = true
    /\ Level derived = Some (if developmentPosture environ then Slog.LevelDebug
                             else Slog.LevelInfo)
    /\ Format derived = if developmentPosture environ then "text" else "json".
Proof.
  intros derived. subst derived. unfold Init. cbn [onceDone initial].
  rewrite options_applied, build_total, defaultConfig_posture.
  eexists. split; [reflexivity |]. cbn. repeat split.
Qed.

(** ** Entry points that read [INFRA] without normalizing it *)

(** C5. [defaultConfig] takes [" LOCAL "] for ["local"], while
    [GetZapLogger] and the earlier [GetSlogLogger] and
    [GetSlogMultiLogger] compare the variable byte for byte: with
    [INFRA=" LOCAL "] they stay at level info (and the production
    encoder), with [INFRA="local"] they go to level debug. *)
Theorem GetZapLogger_compares_INFRA_exactly :
  let padded : gmap string string := {[ "INFRA" := " LOCAL " ]} in
  let exact : gmap string string := {[ "INFRA" := "local" ]} in
  defaultConfig padded = defaultConfig exact
  /\ Level (defaultConfig padded) = Some Slog.LevelDebug
  /\ map Zap.enab (Zap.cores (GetZapLogger "" "svc" exact))
     = [Zap.DebugLevel; Zap.DebugLevel]
  /\ map Zap.enab (Zap.cores (GetZapLogger "" "svc" padded))
     = [Zap.InfoLevel; Zap.InfoLevel]
  /\ map Zap.encoder (Zap.cores (GetZapLogger "" "svc" padded))
     = [Zap.JSONEncoder Zap.ProductionEncoderConfig;
        Zap.ConsoleEncoder Zap.ProductionEncoderConfig]
  /\ Slog.level (Legacy.GetSlogLogger exact).1 = Some Slog.LevelDebug
  /\ Slog.level (Legacy.GetSlogLogger padded).1 = Some Slog.LevelInfo
  /\ Slog.level (Legacy.GetSlogMultiLogger "" padded).1 = Some Slog.LevelInfo.
Proof. vm_compute. repeat split. Qed.

(** ** The singleton *)

Section AnyBuilder.

Variable builder : Config -> option Slog.Logger * option error.

Lemma call_ready (c : gmap string string * Call) (s : State)
      (l : Slog.Logger) :
  ready l s ->
  exists r, call builder c s = Returns (s, r) /\ handsBack l r.
Proof.
  intros (Ho & Hb & He). destruct c as [environ [opts | | dir | dir]];
    unfold call; cbn [fst snd].
  - unfold Init. rewrite Ho, He. eexists. split; reflexivity.
  - unfold GetSlogLogger. rewrite Hb. eexists. split; reflexivity.
  - unfold GetSlogFileLogger. rewrite Hb. eexists. split; reflexivity.
  - unfold GetSlogMultiLogger. rewrite Hb. eexists. split; reflexivity.
Qed.

Lemma run_ready (cs : list (gmap string string * Call)) (s : State)
      (l : Slog.Logger) :
  ready l s ->
  exists rs, run builder cs s = Returns (s, rs)
             /\ List.length rs = List.length cs
             /\ Forall (handsBack l) rs.
Proof.
  intros Hr. induction cs as [| c cs (rs & Hrun & Hlen & Hall)].
  - exists []. repeat split. constructor.
  - destruct (call_ready c s l Hr) as (r & Hc & Hh).
    exists (r :: rs). cbn [run]. rewrite Hc, Hrun.
    repeat split; [cbn; now rewrite Hlen | now constructor].
Qed.

End AnyBuilder.

(** The first call on the package at its start leaves the singleton
    holding a logger, built once. *)
Lemma first_call_ready (c : gmap string string * Call) :
  exists s1 r1 l,
    call build c initial = Returns (s1, r1)
    /\ ready l s1 /\ builds s1 = 1 /\ handsBack l r1.
Proof.
  destruct c as [environ [opts | | dir | dir]]; unfold call; cbn [fst snd];
    unfold GetSlogLogger, GetSlogFileLogger, GetSlogMultiLogger, afterInit,
      Init; cbn [onceDone base initial]; rewrite build_total;
    cbn [initErr base]; do 3 eexists; (split; [reflexivity |]);
    unfold ready; cbn; now repeat split.
Qed.

(** C1. In every sequence of calls to [Init], [GetSlogLogger],
    [GetSlogFileLogger] and [GetSlogMultiLogger], each with its own
    arguments and environment, no call panics, [build] has run once after
    the first call, and the calls after the first leave the state as the
    first call left it: every entry point returns the logger built by
    the first call and [Init] returns no error. *)
Theorem singleton_built_at_most_once
        (c : gmap string string * Call)
        (cs : list (gmap string string * Call)) :
  builds initial = 0
  /\ exists (s1 : State) (r1 : Result) (l : Slog.Logger),
      call build c initial = Returns (s1, r1)
      /\ base s1 = Some l
      /\ builds s1 = 1
      /\ handsBack l r1
      /\ exists rs : list Result,
          run build cs s1 = Returns (s1, rs)
          /\ List.length rs = List.length cs
          /\ Forall (handsBack l) rs.
Proof.
  split; [reflexivity |].
  destruct (first_call_ready c) as (s1 & r1 & l & Hc & Hr & Hb & Hh).
  exists s1, r1, l. repeat split; try assumption.
  - apply Hr.
  - apply run_ready, Hr.
Qed.

(** ** The construction never fails *)

Lemma build_never_fails (c : Config) : (build c).2 = None.
Proof. now rewrite build_total. Qed.

(** ** Panics *)

(** C10. [NewAppLogger] panics on a nil configuration, although it tests
    the pointer before its first two reads; [WithAttrs] panics when it is
    given attributes before the singleton holds a logger. *)
Theorem NewAppLogger_nil_config_panics :
  AppLog.NewAppLogger None = Panics
  /\ WithAttrs ["request_id"; "42"] initial = Panics
  /\ (exists a, AppLog.NewAppLogger
                  (Some {| AppLog.FilePath := ""; AppLog.Name := "";
                           AppLog.Level := Zap.InfoLevel |}) = Returns a).
Proof. repeat split. eexists. reflexivity. Qed.

(** ** The context carrier *)

Module ContextFacts.
Import Context.

Lemma allocated_parent (h : Heap) (a : nat) (c : valueCtx) :
  parentsFirst h -> h !! a = Some c ->
  allocated h (parent c) /\ rank (parent c) <= a.
Proof.
  intros Hwf Hc. specialize (Hwf a c Hc).
  apply lookup_lt_Some in Hc.
  destruct (parent c); cbn in *; lia.
Qed.

(** On a heap of [WithValue] the loop ends, and more fuel than the
    depth of the context changes nothing. *)
Lemma value_fuel (h : Heap) (k : Key) :
  parentsFirst h ->
  forall fuel fuel' ctx,
    allocated h ctx -> rank ctx < fuel -> rank ctx < fuel' ->
    value fuel h ctx k = value fuel' h ctx k
    /\ is_Some (value fuel h ctx k).
Proof.
  intros Hwf. induction fuel as [| fuel IH]; intros fuel' ctx Ha Hf Hf'.
  - lia.
  - destruct fuel' as [| fuel']; [lia |].
    destruct ctx as [| a]; cbn [value]; [now split |].
    cbn in Ha. destruct (lookup_lt_is_Some_2 h a Ha) as [c Hc].
    rewrite Hc. destruct (keyEq (key c) k); [now split |].
    destruct (allocated_parent h a c Hwf Hc) as [Hp Hr].
    cbn [rank] in Hf, Hf'. apply IH; [exact Hp | lia | lia].
Qed.

(** Allocation leaves every lookup from an older context as it was. *)
Lemma value_frame (h : Heap) (c' : valueCtx) (k : Key) :
  parentsFirst h ->
  forall fuel ctx,
    allocated h ctx ->
    value fuel (h ++ [c'])%list ctx k = value fuel h ctx k.
Proof.
  intros Hwf. induction fuel as [| fuel IH]; intros ctx Ha; [reflexivity |].
  destruct ctx as [| a]; cbn [value]; [reflexivity |].
  cbn in Ha. rewrite (lookup_app_l h [c'] a Ha).
  destruct (lookup_lt_is_Some_2 h a Ha) as [c Hc]. rewrite Hc.
  destruct (keyEq (key c) k); [reflexivity |].
  apply IH. now apply (allocated_parent h a c).
Qed.

Lemma Value_frame (h : Heap) (c' : valueCtx) (ctx : Context) (k : Key) :
  parentsFirst h -> allocated h ctx ->
  Value (h ++ [c'])%list ctx k = Value h ctx k
  /\ is_Some (Value h ctx k).
Proof.
  intros Hwf Ha. unfold Value. rewrite value_frame by assumption.
  assert (rank ctx <= List.length h) by (destruct ctx; cbn in *; lia).
  split.
  - apply value_fuel; try assumption; rewrite ?length_app; cbn; lia.
  - apply (value_fuel h k Hwf _ (S (List.length h))); try assumption; lia.
Qed.

Lemma WithValue_parentsFirst (h : Heap) (ctx : Context) (k : Key) (v : any) :
  parentsFirst h -> allocated h ctx ->
  parentsFirst (WithValue h ctx k v).1
  /\ allocated (WithValue h ctx k v).1 (WithValue h ctx k v).2
  /\ allocated (WithValue h ctx k v).1 ctx.
Proof.
  intros Hwf Ha. unfold WithValue. cbn [fst snd]. split; [| split].
  - intros a c Hc. destruct (decide (a < List.length h)) as [Hlt | Hge].
    + rewrite lookup_app_l in Hc by assumption. now apply Hwf.
    + assert (a = List.length h) as ->.
      { apply lookup_lt_Some in Hc. rewrite length_app in Hc. cbn in Hc. lia. }
      rewrite list_lookup_middle in Hc by reflexivity.
      injection Hc as <-. cbn. destruct ctx; [exact I | exact Ha].
  - cbn. rewrite length_app. cbn. lia.
  - destruct ctx; cbn in *; [exact I |]. rewrite length_app. cbn. lia.
Qed.

Lemma keyEq_refl (k : Key) : keyEq k k = true.
Proof. unfold keyEq. now rewrite !String.eqb_refl. Qed.

End ContextFacts.

(** C7. On a heap built by [WithValue], for a context [ctx] of that
    heap and a logger [L]: [LoggerFromContext] on the context returned by
    [WithLogger ctx L] gives [L] and no error; the attachment allocates
    one structure and changes none, so that every lookup from [ctx], and
    [LoggerFromContext] on [ctx], give after it what they gave before,
    and they do give a result. *)
Theorem WithLogger_round_trip
        (h : Context.Heap) (ctx : Context.Context) (L : Context.LoggerValue) :
  Context.parentsFirst h -> Context.allocated h ctx ->
  let h' := (Context.WithLogger h ctx (Some L)).1 in
  let ctx' := (Context.WithLogger h ctx (Some L)).2 in
  Context.LoggerFromContext h' ctx' = Some (Some L, None)
  /\ (forall a c, h !! a = Some c -> h' !! a = Some c)
  /\ (forall k, Context.Value h' ctx k = Context.Value h ctx k)
  /\ Context.LoggerFromContext h' ctx = Context.LoggerFromContext h ctx
  /\ is_Some (Context.LoggerFromContext h ctx)
  /\ Context.parentsFirst h' /\ Context.allocated h' ctx'.
Proof.
  intros Hwf Ha h' ctx'. subst h' ctx'.
  unfold Context.WithLogger, Context.WithValue. cbn [fst snd].
  assert (Hk : forall k,
             Context.Value (h ++ [{| Context.parent := ctx;
                                     Context.key := Context.contextLoggerKey;
                                     Context.val := Context.OfLogger L |}])%list
                           ctx k
             = Context.Value h ctx k
             /\ is_Some (Context.Value h ctx k)).
  { intros k. now apply ContextFacts.Value_frame. }
  split; [| split; [| split; [| split; [| split]]]].
  - unfold Context.LoggerFromContext, Context.Value. cbn [Context.value].
    rewrite list_lookup_middle by reflexivity. cbn [Context.key Context.val].
    now rewrite ContextFacts.keyEq_refl.
  - intros a c Hc. rewrite lookup_app_l; [exact Hc |].
    now apply lookup_lt_Some in Hc.
  - intros k. apply Hk.
  - unfold Context.LoggerFromContext. now rewrite (proj1 (Hk _)).
  - unfold Context.LoggerFromContext.
    destruct (proj2 (Hk Context.contextLoggerKey)) as [v ->].
    now destruct v.
  - destruct (ContextFacts.WithValue_parentsFirst
                h ctx Context.contextLoggerKey (Context.OfLogger L) Hwf Ha)
      as (H1 & H2 & _).
    split; [exact H1 | exact H2].
Qed.

Lemma WithLogger_round_trip_witness :
  let h0 := (Context.WithValue [] Context.Background
               {| Context.keyType := "main.key"; Context.keyValue := "user" |}
               (Context.Other "string" "ann")).1 in
  let ctx0 := Context.ValueCtx 0 in
  let L := Context.SlogLogger (Some discardLogger) in
  Context.LoggerFromContext (Context.WithLogger h0 ctx0 (Some L)).1
                            (Context.WithLogger h0 ctx0 (Some L)).2
  = Some (Some L, None)
  /\ Context.LoggerFromContext (Context.WithLogger h0 ctx0 (Some L)).1 ctx0
     = Context.LoggerFromContext h0 ctx0.
Proof.
  intros h0 ctx0 L.
  destruct (WithLogger_round_trip h0 ctx0 L) as (H1 & _ & _ & H4 & _).
  - intros a c Hc. destruct a as [| a]; [| discriminate Hc].
    injection Hc as <-. exact I.
  - cbn. lia.
  - split; [exact H1 | exact H4].
Defined.

(** C8. On a heap built by [WithValue], [LoggerFromContext] gives a
    result, and that result is logger [l] with no error exactly when the
    lookup of the private key gives [l], a value that implements
    [Logger]; in every other case (nil, no value, a value of another
    type) it is no logger and the error "no logger found in context". *)
Theorem LoggerFromContext_present_or_error
        (h : Context.Heap) (ctx : Context.Context) :
  Context.parentsFirst h -> Context.allocated h ctx ->
  (exists v : Context.any,
      Context.Value h ctx Context.contextLoggerKey = Some v
      /\ Context.LoggerFromContext h ctx =
           Some (match v with
                 | Context.OfLogger l => (Some l, None)
                 | _ => (None, Some ErrNoLoggerInContext)
                 end))
  /\ (forall l : Context.LoggerValue,
         Context.LoggerFromContext h ctx = Some (Some l, None)
         <-> Context.Value h ctx Context.contextLoggerKey
             = Some (Context.OfLogger l))
  /\ ((forall l : Context.LoggerValue,
          Context.Value h ctx Context.contextLoggerKey
          <> Some (Context.OfLogger l)) ->
      Context.LoggerFromContext h ctx
      = Some (None, Some "no logger found in context")).
Proof.
  intros Hwf Ha.
  destruct (proj2 (ContextFacts.Value_frame
                     h {| Context.parent := ctx;
                          Context.key := Context.contextLoggerKey;
                          Context.val := Context.Nil |}
                     ctx Context.contextLoggerKey Hwf Ha)) as [v Hv].
  unfold Context.LoggerFromContext. rewrite Hv. split; [| split].
  - exists v. split; [reflexivity |]. now destruct v.
  - intros l. destruct v; split; intros H; try discriminate H;
      injection H as ->; reflexivity.
  - intros Hno. destruct v as [| l |]; try reflexivity.
    now destruct (Hno l).
Qed.

Lemma LoggerFromContext_present_or_error_witness :
  Context.LoggerFromContext [] Context.Background
  = Some (None, Some "no logger found in context").
Proof.
  destruct (LoggerFromContext_present_or_error [] Context.Background)
    as (_ & _ & H).
  - intros a c Hc. discriminate Hc.
  - exact I.
  - apply H. intros l Hl. discriminate Hl.
Defined.

(** ** The log file path *)

Module FilepathFacts.
Import Filepath.

Lemma append_assoc (a b c : string) : (a ++ b) ++ c = a ++ (b ++ c).
Proof.
  induction a as [| x a IH]; [reflexivity |].
  change (String x ((a ++ b) ++ c) = String x (a ++ b ++ c)). now f_equal.
Qed.

Lemma append_empty (a : string) : a ++ "" = a.
Proof.
  induction a as [| x a IH]; [reflexivity |].
  change (String x (a ++ "") = String x a). now f_equal.
Qed.

Lemma splitFrom_noSlash (e : string) :
  noSlash e = true ->
  forall cur s, splitFrom cur (e ++ s) = splitFrom (cur ++ e) s.
Proof.
  induction e as [| a e IH]; intros He cur s.
  - change ("" ++ s) with s. now rewrite append_empty.
  - cbn [noSlash] in He. apply andb_true_iff in He as [Ha He].
    apply negb_true_iff in Ha.
    change (String a e ++ s) with (String a (e ++ s)).
    cbn [splitFrom]. rewrite Ha, (IH He), append_assoc.
    reflexivity.
Qed.

Lemma splitFrom_concat (xs : list string) :
  forallb noSlash xs = true ->
  forall x cur, noSlash x = true ->
                splitFrom cur (String.concat "/" (x :: xs)) = (cur ++ x) :: xs.
Proof.
  induction xs as [| y xs IH]; intros Hxs x cur Hx.
  - cbn [String.concat]. rewrite <- (append_empty x) at 1.
    now rewrite splitFrom_noSlash.
  - cbn [forallb] in Hxs. apply andb_true_iff in Hxs as [Hy Hxs].
    change (String.concat "/" (x :: y :: xs))
      with (x ++ "/" ++ String.concat "/" (y :: xs)).
    rewrite splitFrom_noSlash by assumption.
    change ("/" ++ String.concat "/" (y :: xs))
      with (String "/"%char (String.concat "/" (y :: xs))).
    cbn [splitFrom]. change (isSlash "/"%char) with true. cbn match.
    now rewrite (IH Hxs y "" Hy).
Qed.

Lemma cleanLoop_names (rooted : bool) (es : list string) :
  forallb isName es = true ->
  forall out, cleanLoop rooted es out = (rev out ++ es)%list.
Proof.
  induction es as [| e es IH]; intros Hes out; cbn [cleanLoop].
  - now rewrite app_nil_r.
  - cbn [forallb] in Hes. apply andb_true_iff in Hes as [He Hes].
    unfold isName in He. rewrite !andb_true_iff, !negb_true_iff in He.
    destruct He as [[[_ H0] H1] H2]. rewrite H0, H1, H2. cbn [orb].
    rewrite (IH Hes). cbn [rev]. now rewrite <- app_assoc.
Qed.

Lemma isName_noSlash (es : list string) :
  forallb isName es = true -> forallb noSlash es = true.
Proof.
  induction es as [| e es IH]; [reflexivity |]. cbn [forallb].
  rewrite !andb_true_iff. intros [He Hes]. split; [| now apply IH].
  unfold isName in He. rewrite !andb_true_iff in He. tauto.
Qed.

Lemma concat_snoc (xs : list string) (x y : string) :
  String.concat "/" (x :: xs ++ [y]) = String.concat "/" (x :: xs) ++ "/" ++ y.
Proof.
  revert x. induction xs as [| z xs IH]; intros x; [reflexivity |].
  change (String.concat "/" (x :: (z :: xs) ++ [y]))
    with (x ++ "/" ++ String.concat "/" (z :: xs ++ [y])).
  change (String.concat "/" (x :: z :: xs))
    with (x ++ "/" ++ String.concat "/" (z :: xs)).
  now rewrite IH, !append_assoc.
Qed.

Lemma concat_head (a : ascii) (r : string) (rest : list string) :
  exists t, String.concat "/" (String a r :: rest) = String a t.
Proof. destruct rest; eexists; reflexivity. Qed.

(** [Clean] keeps a path made of names, rooted or not. *)
Lemma Clean_names (rooted : bool) (a : ascii) (r : string)
      (rest : list string) :
  forallb isName (String a r :: rest) = true ->
  Clean ((if rooted then "/" else "")
         ++ String.concat "/" (String a r :: rest))
  = (if rooted then "/" else "") ++ String.concat "/" (String a r :: rest).
Proof.
  intros Hn.
  assert (Ha : isSlash a = false).
  { cbn [forallb] in Hn. apply andb_true_iff in Hn as [Hx _].
    unfold isName in Hx. rewrite !andb_true_iff in Hx.
    destruct Hx as [[[Hs _] _] _]. cbn [noSlash] in Hs.
    apply andb_true_iff in Hs as [Hs _]. now apply negb_true_iff in Hs. }
  assert (Hs : splitFrom "" (String.concat "/" (String a r :: rest))
               = String a r :: rest).
  { pose proof (isName_noSlash _ Hn) as Hn'. cbn [forallb] in Hn'.
    apply andb_true_iff in Hn' as [H1 H2].
    now rewrite splitFrom_concat. }
  pose proof (cleanLoop_names rooted _ Hn []) as Hc.
  destruct (concat_head a r rest) as [t Ht].
  remember (String.concat "/" (String a r :: rest)) as p eqn:Hp.
  assert (Hp1 : (p =? "") = false) by (rewrite Ht; reflexivity).
  assert (Hp2 : rootedPath p = false) by (rewrite Ht; exact Ha).
  assert (Hp3 : match String a r :: rest with
                | [] => "."
                | _ :: _ => String.concat "/" (String a r :: rest)
                end = p) by (now rewrite Hp).
  unfold Clean, split. destruct rooted.
  - change ("/" ++ p) with (String "/"%char p).
    cbn [String.eqb rootedPath splitFrom].
    change (isSlash "/"%char) with true. cbn match.
    rewrite Hs.
    change (cleanLoop true ("" :: String a r :: rest) [])
      with (cleanLoop true (String a r :: rest) []).
    rewrite Hc. cbn [rev app]. now rewrite <- Hp.
  - change ("" ++ p) with p.
    rewrite Hp1, Hp2, Hs, Hc. cbn [rev app]. exact Hp3.
Qed.

(** [Join] of a directory made of names, rooted or not, and of
    ["logs/app.log"] is the directory, a separator and that path. *)
Lemma Join_names (rooted : bool) (x : string) (xs : list string) :
  forallb isName (x :: xs) = true ->
  let dir := (if rooted then "/" else "") ++ String.concat "/" (x :: xs) in
  Join [dir; "logs/app.log"] = dir ++ "/logs/app.log".
Proof.
  intros Hn dir.
  assert (Hn' : forallb isName (x :: xs ++ ["logs"; "app.log"]) = true).
  { change (x :: xs ++ ["logs"; "app.log"])%list
      with ((x :: xs) ++ ["logs"; "app.log"])%list.
    rewrite forallb_app, Hn. reflexivity. }
  assert (Hpath : String.concat "/" (x :: xs ++ ["logs"; "app.log"])
                  = String.concat "/" (x :: xs) ++ "/logs/app.log").
  { change (xs ++ ["logs"; "app.log"])%list
      with (xs ++ ["logs"] ++ ["app.log"])%list.
    rewrite app_assoc, concat_snoc, concat_snoc, !append_assoc.
    reflexivity. }
  assert (Hjoin : String.concat "/" [dir; "logs/app.log"]
                  = (if rooted then "/" else "")
                    ++ String.concat "/" (x :: xs ++ ["logs"; "app.log"])).
  { rewrite Hpath. subst dir. cbn [String.concat].
    now rewrite !append_assoc. }
  destruct x as [| a r]; [discriminate Hn |].
  cbn [Join].
  assert (Hd : (dir =? "") = false).
  { apply String.eqb_neq. subst dir.
    destruct (concat_head a r xs) as [t ->]. now destruct rooted. }
  rewrite Hd, Hjoin, (Clean_names rooted a r _ Hn'), Hpath. subst dir.
  now rewrite append_assoc.
Qed.

End FilepathFacts.

Lemma Named_cores (s : string) (log : Zap.Logger) :
  Zap.cores (Zap.Named s log) = Zap.cores log.
Proof. unfold Zap.Named. now destruct (s =? ""). Qed.

(** C9. Every entry point that makes a file sink gives it the path
    ["logs/app.log"] when the directory argument is empty and
    [filepath.Join] of the directory and ["logs/app.log"] otherwise, and
    never fails: [GetFileWriter], [GetZapLogger], the earlier
    [GetSlogMultiLogger], and [GetSlogFileLogger] and
    [GetSlogMultiLogger] when they construct the singleton. For a
    directory written as names separated by [/], rooted or not, the
    joined path is the directory followed by ["/logs/app.log"]. *)
Theorem log_file_path_resolution
        (dir namedAs : string) (environ : gmap string string) (s : State) :
  onceDone s = false -> base s = None ->
  let path :=
    if dir =? "" then "logs/app.log" else Filepath.Join [dir; "logs/app.log"] in
  let fileSink :=
    Slog.Lumberjack
      {| Slog.Filename := path; Slog.MaxSize := 100; Slog.MaxBackups := 5;
         Slog.MaxAge := 28; Slog.Compress := true |} in
  GetFileWriter dir = fileSink
  /\ (exists s' l, GetSlogFileLogger build dir environ s = Returns (s', l)
                   /\ base s' = Some l /\ Slog.writer l = fileSink)
  /\ (exists s' l, GetSlogMultiLogger build dir environ s = Returns (s', l)
                   /\ base s' = Some l
                   /\ Slog.writer l = Slog.multiWriter [Slog.Stdout; fileSink])
  /\ map Zap.sink (Zap.cores (GetZapLogger dir namedAs environ))
     = [Slog.Lumberjack
          {| Slog.Filename := path; Slog.MaxSize := 10; Slog.MaxBackups := 3;
             Slog.MaxAge := 28; Slog.Compress := false |};
        Slog.Stdout]
  /\ Slog.writer (Legacy.GetSlogMultiLogger dir environ).1
     = Slog.multiWriter [Slog.Stdout; fileSink]
  /\ (dir = "" -> path = "logs/app.log")
  /\ (forall (rooted : bool) (x : string) (xs : list string),
         forallb Filepath.isName (x :: xs) = true ->
         dir = (if rooted then "/" else "") ++ String.concat "/" (x :: xs) ->
         path = dir ++ "/logs/app.log").
Proof.
  intros Ho Hb path fileSink.
  split; [reflexivity |]. split; [| split; [| split; [| split; [| split]]]].
  - unfold GetSlogFileLogger, afterInit, Init. rewrite Hb, Ho, build_total.
    cbn. do 2 eexists. repeat split.
  - unfold GetSlogMultiLogger, afterInit, Init. rewrite Hb, Ho, build_total.
    cbn. do 2 eexists. repeat split.
  - unfold GetZapLogger. now rewrite Named_cores.
  - reflexivity.
  - intros ->. reflexivity.
  - intros rooted x xs Hn Hd. subst path.
    pose proof (FilepathFacts.Join_names rooted x xs Hn) as HJ. cbn zeta in HJ.
    rewrite <- Hd in HJ. rewrite HJ.
    assert ((dir =? "") = false) as ->; [| reflexivity].
    apply String.eqb_neq. intros ->.
    destruct x as [| a r]; [discriminate Hn |].
    destruct (FilepathFacts.concat_head a r xs) as [t Ht]. rewrite Ht in Hd.
    now destruct rooted.
Qed.

Lemma log_file_path_resolution_witness :
  GetFileWriter ""
  = Slog.Lumberjack
      {| Slog.Filename := "logs/app.log"; Slog.MaxSize := 100;
         Slog.MaxBackups := 5; Slog.MaxAge := 28; Slog.Compress := true |}
  /\ GetFileWriter "/var/data"
     = Slog.Lumberjack
         {| Slog.Filename := "/var/data/logs/app.log"; Slog.MaxSize := 100;
            Slog.MaxBackups := 5; Slog.MaxAge := 28; Slog.Compress := true |}.
Proof.
  split.
  - destruct (log_file_path_resolution "" "svc" ∅ initial) as (H & _);
      [reflexivity | reflexivity |]. exact H.
  - destruct (log_file_path_resolution "/var/data" "svc" ∅ initial)
      as (H & _ & _ & _ & _ & _ & Hn); [reflexivity | reflexivity |].
    rewrite H. rewrite (Hn true "var" ["data"]); reflexivity.
Defined.

(* ===================================================================== *)
(** * Further properties of the package *)
(* ===================================================================== *)

(** ** The resolver on values that denote nothing *)

(** When [ENV] and [GO_ENV] hold values that do not denote development
    and [INFRA] one that does not denote local, whatever these values
    are, [defaultConfig] is the json format at level info on standard
    output with source locations. *)
Theorem defaultConfig_other_values (environ : gmap string string) :
  denotesDevelopment (Getenv environ "ENV") = false ->
  denotesDevelopment (Getenv environ "GO_ENV") = false ->
  denotesLocal (Getenv environ "INFRA") = false ->
  defaultConfig environ =
    {| Level := Some Slog.LevelInfo; Format := "json";
       Writer := Slog.Stdout; AddSource := true |}.
Proof.
  intros He Hg Hi. rewrite defaultConfig_posture.
  unfold developmentPosture. now rewrite He, Hg, Hi.
Qed.

Lemma defaultConfig_other_values_witness :
  defaultConfig {[ "ENV" := "production"; "GO_ENV" := "devel";
                   "INFRA" := "local-1" ]}
  = {| Level := Some Slog.LevelInfo; Format := "json";
       Writer := Slog.Stdout; AddSource := true |}.
Proof.
  apply defaultConfig_other_values; vm_compute; reflexivity.
Defined.

(** ** Options: the last one for a field decides *)

Lemma lastSupplied_app {A : Type} (sel : Supplied -> option A)
      (os1 os2 : list Supplied) :
  lastSupplied sel (os1 ++ os2)%list =
    match lastSupplied sel os2 with
    | Some x => Some x
    | None => lastSupplied sel os1
    end.
Proof.
  induction os2 as [| o os2 IH] using rev_ind.
  - now rewrite app_nil_r.
  - rewrite app_assoc, !lastSupplied_snoc, IH. now destruct (sel o).
Qed.

Lemma Init_depends_on_last (environ : gmap string string)
      (os1 os2 : list Supplied) :
  lastSupplied levelOf os1 = lastSupplied levelOf os2 ->
  lastSupplied formatOf os1 = lastSupplied formatOf os2 ->
  lastSupplied writerOf os1 = lastSupplied writerOf os2 ->
  lastSupplied addSourceOf os1 = lastSupplied addSourceOf os2 ->
  Init build (map toOption os1) environ initial
  = Init build (map toOption os2) environ initial.
Proof.
  intros Hl Hf Hw Ha. unfold Init. cbn [onceDone initial].
  now rewrite !options_applied, Hl, Hf, Hw, Ha.
Qed.

(** [Init] with a list of options given twice over, or with two
    options for different fields in the other order, constructs the
    same singleton. *)
Theorem Init_options_repeat_and_commute
        (environ : gmap string string) (os : list Supplied)
        (o1 o2 : Supplied) :
  fieldOf o1 <> fieldOf o2 ->
  Init build (map toOption (os ++ os)) environ initial
  = Init build (map toOption os) environ initial
  /\ Init build (map toOption (os ++ [o1; o2])) environ initial
     = Init build (map toOption (os ++ [o2; o1])) environ initial.
Proof.
  intros Hne. split.
  - apply Init_depends_on_last; rewrite lastSupplied_app;
      now destruct (lastSupplied _ os).
  - apply Init_depends_on_last; rewrite !lastSupplied_app;
      destruct o1, o2; cbn in Hne; try reflexivity; now destruct Hne.
Qed.

Lemma Init_options_repeat_and_commute_witness :
  Init build (map toOption [SuppliedFormat "text"; SuppliedLevel None;
                            SuppliedAddSource false]) ∅ initial
  = Init build (map toOption [SuppliedFormat "text"; SuppliedAddSource false;
                              SuppliedLevel None]) ∅ initial.
Proof.
  apply (Init_options_repeat_and_commute
           ∅ [SuppliedFormat "text"] (SuppliedLevel None)
           (SuppliedAddSource false)).
  cbn. lia.
Defined.

(** ** slog's default logger *)

(** In a sequence of calls, slog's default logger is set by the first
    call when that call is a get-logger entry point, to the logger it
    returns, and is never set when the first call is [Init]: the later
    entry points return before they reach [slog.SetDefault]. *)
Theorem slog_default_set_by_first_getter_only
        (c : gmap string string * Call)
        (cs : list (gmap string string * Call)) :
  exists (s : State) (rs : list Result),
    run build (c :: cs) initial = Returns (s, rs)
    /\ slogDefault s = (if isGetter c.2 then base s else None)
    /\ is_Some (base s).
Proof.
  assert (H1 : exists s1 r1 l,
             call build c initial = Returns (s1, r1) /\ ready l s1
             /\ slogDefault s1 = (if isGetter c.2 then Some l else None)).
  { destruct c as [environ [opts | | dir | dir]]; unfold call; cbn [fst snd];
      unfold GetSlogLogger, GetSlogFileLogger, GetSlogMultiLogger, afterInit,
        Init; cbn [onceDone base initial]; rewrite build_total;
      cbn [initErr base]; do 3 eexists; (split; [reflexivity |]);
      unfold ready; cbn; now repeat split. }
  destruct H1 as (s1 & r1 & l & Hc & Hr & Hd).
  destruct (run_ready build cs s1 l Hr) as (rs & Hrun & _ & _).
  exists s1, (r1 :: rs). cbn [run]. rewrite Hc, Hrun.
  destruct Hr as (_ & Hb & _). rewrite Hb, Hd.
  split; [reflexivity |]. split; [now destruct (isGetter c.2) | eauto].
Qed.

(** ** What the singleton's logger writes *)

Lemma posture_level_enabled (environ : gmap string string) (lv : Slog.Level) :
  (Slog.LevelInfo <= lv)%Z ->
  ((if developmentPosture environ then Slog.LevelDebug else Slog.LevelInfo)
   <=? lv)%Z = true.
Proof.
  intros H. apply Z.leb_le. unfold Slog.LevelInfo, Slog.LevelDebug in *.
  destruct (developmentPosture environ); lia.
Qed.



(** The logger that [GetSlogFileLogger] constructs hands every record
    at level info or above to the rotating writer of the log file and to
    no other writer. *)
Theorem file_logger_writes_file_only
        (sink : Slog.Writer -> string -> Slog.Output
                -> Slog.Output * option string)
        (dir : string) (environ : gmap string string)
        (lv : Slog.Level) (msg : string) (o : Slog.Output) :
  (Slog.LevelInfo <= lv)%Z ->
  exists (s : State) (l : Slog.Logger),
    GetSlogFileLogger build dir environ initial = Returns (s, l)
    /\ Slog.log sink lv l msg o =
         (sink (Slog.Lumberjack
                  {| Slog.Filename := logFilePath dir; Slog.MaxSize := 100;
                     Slog.MaxBackups := 5; Slog.MaxAge := 28;
                     Slog.Compress := true |})
               (Slog.render l lv msg) o).1.
Proof.
  intros Hlv. unfold GetSlogFileLogger, afterInit, Init.
  cbn [onceDone base initial]. rewrite build_total, defaultConfig_posture.
  cbn [initErr base fold_left WithWriter Level Format Writer AddSource].
  do 2 eexists. split; [reflexivity |].
  unfold Slog.log, Slog.Enabled. cbn [Slog.level Slog.writer default id].
  rewrite posture_level_enabled by assumption.
  reflexivity.
Qed.

Lemma file_logger_writes_file_only_witness :
  exists (s : State) (l : Slog.Logger),
    GetSlogFileLogger build "" ∅ initial = Returns (s, l)
    /\ Slog.log (fun _ _ o => (o, Some "read-only file system"))
                Slog.LevelError l "boom" Slog.noOutput
       = Slog.noOutput.
Proof.
  apply (file_logger_writes_file_only
           (fun _ _ o => (o, Some "read-only file system"))
           "" ∅ Slog.LevelError "boom" Slog.noOutput).
  vm_compute. discriminate.
Defined.

(** The logger that the first call of a get-logger entry point
    constructs takes its handler and threshold from the environment of
    that call: in a development posture the text handler, and debug
    records are written; otherwise the json handler, and debug records
    are dropped. Source locations are on in both. *)
Theorem singleton_threshold_follows_posture
        (environ : gmap string string) (c : Call) :
  isGetter c = true ->
  exists (s : State) (l : Slog.Logger),
    call build (environ, c) initial = Returns (s, LoggerReturned l)
    /\ Slog.addSource l = true
    /\ Slog.kind l = (if developmentPosture environ then Slog.TextHandler
                      else Slog.JSONHandler)
    /\ forall (sink : Slog.Writer -> string -> Slog.Output
                            -> Slog.Output * option string)
              (msg : string) (o : Slog.Output),
        Slog.Debug sink l msg o =
          (if developmentPosture environ
           then (Slog.write sink (Slog.writer l)
                            (Slog.render l Slog.LevelDebug msg) o).1
           else o).
Proof.
  intros Hg. destruct c as [opts | | dir | dir]; [discriminate Hg | | |];
    unfold call; cbn [fst snd];
    unfold GetSlogLogger, GetSlogFileLogger, GetSlogMultiLogger, afterInit,
      Init; cbn [onceDone base initial];
    rewrite build_total, defaultConfig_posture;
    cbn [initErr base fold_left WithWriter Level Format Writer AddSource];
    do 2 eexists; (split; [reflexivity |]); cbn [Slog.addSource Slog.kind];
    (split; [reflexivity |]);
    (split; [now destruct (developmentPosture environ) |]);
    intros sink msg o; unfold Slog.Debug, Slog.log, Slog.Enabled;
    cbn [Slog.level Slog.writer default];
    now destruct (developmentPosture environ).
Qed.

Lemma singleton_threshold_follows_posture_witness :
  exists (s : State) (l : Slog.Logger),
    call build (∅, CallGetSlogFileLogger "") initial
    = Returns (s, LoggerReturned l)
    /\ Slog.addSource l = true.
Proof.
  destruct (singleton_threshold_follows_posture ∅ (CallGetSlogFileLogger ""))
    as (s & l & Hc & Ha & _); [reflexivity |].
  exists s, l. split; [exact Hc | exact Ha].
Defined.

(** Once a get-logger entry point without a file sink has constructed
    the singleton, [GetSlogFileLogger] and [GetSlogMultiLogger] return
    that logger whatever directory they are given: it writes to standard
    output, and no record sent through it reaches a file. *)
Theorem directory_ignored_once_constructed
        (environ environ' : gmap string string) (dir : string) :
  exists (s : State) (l : Slog.Logger),
    GetSlogLogger build environ initial = Returns (s, l)
    /\ GetSlogFileLogger build dir environ' s = Returns (s, l)
    /\ GetSlogMultiLogger build dir environ' s = Returns (s, l)
    /\ Slog.writer l = Slog.Stdout
    /\ forall (sink : Slog.Writer -> string -> Slog.Output
                            -> Slog.Output * option string)
              (lv : Slog.Level) (msg : string) (o : Slog.Output),
        Slog.files (Slog.log sink lv l msg o) = Slog.files o.
Proof.
  unfold GetSlogLogger, afterInit, Init. cbn [onceDone base initial].
  rewrite build_total, defaultConfig_posture.
  cbn [initErr base fold_left Level Format Writer AddSource].
  do 2 eexists. split; [reflexivity |].
  unfold GetSlogFileLogger, GetSlogMultiLogger, SetDefault. cbn [base].
  repeat split.
  intros sink lv msg o. unfold Slog.log. cbn [Slog.writer].
  now destruct (Slog.Enabled _ lv).
Qed.

(** ** [WithAttrs] once the singleton is constructed *)

(** After any sequence of calls that starts the singleton, [WithAttrs]
    returns a logger with the handler, writer and threshold of the
    singleton and the given attributes, and leaves the singleton's own
    attributes alone; without attributes it returns the singleton
    itself. *)
Theorem WithAttrs_derives_from_singleton
        (c : gmap string string * Call)
        (cs : list (gmap string string * Call)) (attrs : list string) :
  exists (s : State) (rs : list Result) (l l' : Slog.Logger),
    run build (c :: cs) initial = Returns (s, rs)
    /\ base s = Some l
    /\ WithAttrs attrs s = Returns (Some l')
    /\ Slog.kind l' = Slog.kind l
    /\ Slog.writer l' = Slog.writer l
    /\ Slog.level l' = Slog.level l
    /\ Slog.addSource l' = Slog.addSource l
    /\ Slog.attrs l' = attrs
    /\ Slog.attrs l = []
    /\ (attrs = [] -> l' = l).
Proof.
  destruct (first_call_ready c) as (s1 & r1 & l & Hc & Hr & _ & _).
  destruct (run_ready build cs s1 l Hr) as (rs & Hrun & _ & _).
  assert (Ha : Slog.attrs l = []).
  { destruct Hr as (_ & Hb & _). revert Hc Hb.
    destruct c as [environ [opts | | dir | dir]]; unfold call; cbn [fst snd];
      unfold GetSlogLogger, GetSlogFileLogger, GetSlogMultiLogger, afterInit,
        Init; cbn [onceDone base initial]; rewrite build_total;
      cbn [initErr base]; intros [= <- _]; cbn [base SetDefault];
      now intros [= <-]. }
  destruct Hr as (_ & Hb & _).
  exists s1, (r1 :: rs), l. unfold WithAttrs. rewrite Hb.
  destruct attrs as [| a attrs].
  - exists l. cbn [run]. rewrite Hc, Hrun. now repeat split.
  - eexists. cbn [run]. rewrite Hc, Hrun.
    split; [reflexivity |]. split; [reflexivity |]. split; [reflexivity |].
    cbn. rewrite Ha. repeat split. discriminate.
Qed.

Lemma WithAttrs_derives_from_singleton_witness :
  exists (s : State) (rs : list Result) (l l' : Slog.Logger),
    run build [(∅, CallInit [])] initial = Returns (s, rs)
    /\ base s = Some l
    /\ WithAttrs [] s = Returns (Some l')
    /\ l' = l.
Proof.
  destruct (WithAttrs_derives_from_singleton (∅, CallInit []) [] [])
    as (s & rs & l & l' & Hrun & Hb & Hw & _ & _ & _ & _ & _ & _ & He).
  exists s, rs, l, l'. repeat split; try assumption. now apply He.
Defined.

(** ** More on the context carrier *)

(** The lookup from a context just made by [WithValue]: the new value
    for its own key, the parent's answer for any other key. *)
Lemma Value_WithValue (h : list Context.valueCtx) (ctx : Context.Context)
      (k k' : Context.Key) (v : Context.any) :
  Context.parentsFirst h -> Context.allocated h ctx ->
  Context.Value (Context.WithValue h ctx k v).1
                (Context.WithValue h ctx k v).2 k'
  = if Context.keyEq k k' then Some v else Context.Value h ctx k'.
Proof.
  intros Hwf Ha. unfold Context.WithValue. cbn [fst snd].
  unfold Context.Value at 1.
  cbn [Context.value]. rewrite list_lookup_middle by reflexivity.
  cbn [Context.key Context.val Context.parent].
  destruct (Context.keyEq k k'); [reflexivity |].
  rewrite ContextFacts.value_frame by assumption.
  assert (Context.rank ctx <= List.length h) by (destruct ctx; cbn in *; lia).
  unfold Context.Value.
  apply ContextFacts.value_fuel; try assumption; rewrite ?length_app; cbn; lia.
Qed.

(** A value attached under another key does not hide the logger:
    [LoggerFromContext] on the derived context answers as on the
    parent. *)
Theorem other_keys_do_not_hide_logger
        (h : list Context.valueCtx) (ctx : Context.Context)
        (k : Context.Key) (v : Context.any) :
  Context.parentsFirst h -> Context.allocated h ctx ->
  Context.keyEq k Context.contextLoggerKey = false ->
  Context.LoggerFromContext (Context.WithValue h ctx k v).1
                            (Context.WithValue h ctx k v).2
  = Context.LoggerFromContext h ctx.
Proof.
  intros Hwf Ha Hk. unfold Context.LoggerFromContext.
  now rewrite Value_WithValue, Hk.
Qed.

Lemma other_keys_do_not_hide_logger_witness :
  let L := Context.CustomLogger "audit" in
  let hc := Context.WithLogger [] Context.Background (Some L) in
  let k := {| Context.keyType := "main.ctxKey"; Context.keyValue := "user" |} in
  Context.LoggerFromContext
    (Context.WithValue hc.1 hc.2 k (Context.Other "string" "ann")).1
    (Context.WithValue hc.1 hc.2 k (Context.Other "string" "ann")).2
  = Context.LoggerFromContext hc.1 hc.2.
Proof.
  intros L hc k. apply other_keys_do_not_hide_logger.
  - intros a c Hc. destruct a as [| a]; [| discriminate Hc].
    injection Hc as <-. exact I.
  - cbn. lia.
  - reflexivity.
Defined.

(** [WithLogger] given a nil logger makes a context on which
    [LoggerFromContext] fails, also when the parent carries a logger;
    the parent still gives its logger. *)
Theorem nil_logger_hides_parent
        (h : list Context.valueCtx) (ctx : Context.Context)
        (L : Context.LoggerValue) :
  Context.parentsFirst h -> Context.allocated h ctx ->
  let h1 := (Context.WithLogger h ctx (Some L)).1 in
  let c1 := (Context.WithLogger h ctx (Some L)).2 in
  let h2 := (Context.WithLogger h1 c1 None).1 in
  let c2 := (Context.WithLogger h1 c1 None).2 in
  Context.LoggerFromContext h2 c2 = Some (None, Some ErrNoLoggerInContext)
  /\ Context.LoggerFromContext h2 c1 = Some (Some L, None).
Proof.
  intros Hwf Ha h1 c1 h2 c2.
  destruct (ContextFacts.WithValue_parentsFirst
              h ctx Context.contextLoggerKey (Context.OfLogger L) Hwf Ha)
    as (Hwf1 & Ha1 & _).
  fold (Context.WithLogger h ctx (Some L)) in Hwf1, Ha1. fold h1 c1 in Hwf1, Ha1.
  split.
  - unfold Context.LoggerFromContext. subst h2 c2. unfold Context.WithLogger at 1 2.
    now rewrite Value_WithValue, ContextFacts.keyEq_refl.
  - unfold Context.LoggerFromContext. subst h2. unfold Context.WithLogger at 1.
    unfold Context.WithValue at 1. cbn [fst].
    rewrite (proj1 (ContextFacts.Value_frame h1 _ c1 _ Hwf1 Ha1)).
    subst h1 c1. unfold Context.WithLogger.
    now rewrite Value_WithValue, ContextFacts.keyEq_refl.
Qed.

Lemma nil_logger_hides_parent_witness :
  let L := Context.SlogLogger None in
  let h1 := (Context.WithLogger [] Context.Background (Some L)).1 in
  let c1 := (Context.WithLogger [] Context.Background (Some L)).2 in
  Context.LoggerFromContext (Context.WithLogger h1 c1 None).1
                            (Context.WithLogger h1 c1 None).2
  = Some (None, Some ErrNoLoggerInContext)
  /\ Context.LoggerFromContext (Context.WithLogger h1 c1 None).1 c1
     = Some (Some L, None).
Proof.
  intros L h1 c1.
  apply (nil_logger_hides_parent [] Context.Background L).
  - intros a c Hc. discriminate Hc.
  - exact I.
Defined.

(** Of two loggers attached one after the other, the context of the
    second gives the second and the context of the first still gives the
    first. *)
Theorem nearest_logger_wins
        (h : list Context.valueCtx) (ctx : Context.Context)
        (L1 L2 : Context.LoggerValue) :
  Context.parentsFirst h -> Context.allocated h ctx ->
  let h1 := (Context.WithLogger h ctx (Some L1)).1 in
  let c1 := (Context.WithLogger h ctx (Some L1)).2 in
  let h2 := (Context.WithLogger h1 c1 (Some L2)).1 in
  let c2 := (Context.WithLogger h1 c1 (Some L2)).2 in
  Context.LoggerFromContext h2 c2 = Some (Some L2, None)
  /\ Context.LoggerFromContext h2 c1 = Some (Some L1, None).
Proof.
  intros Hwf Ha h1 c1 h2 c2.
  destruct (ContextFacts.WithValue_parentsFirst
              h ctx Context.contextLoggerKey (Context.OfLogger L1) Hwf Ha)
    as (Hwf1 & Ha1 & _).
  fold (Context.WithLogger h ctx (Some L1)) in Hwf1, Ha1.
  fold h1 c1 in Hwf1, Ha1.
  split.
  - unfold Context.LoggerFromContext. subst h2 c2. unfold Context.WithLogger at 1 2.
    now rewrite Value_WithValue, ContextFacts.keyEq_refl.
  - unfold Context.LoggerFromContext. subst h2. unfold Context.WithLogger at 1.
    unfold Context.WithValue at 1. cbn [fst].
    rewrite (proj1 (ContextFacts.Value_frame h1 _ c1 _ Hwf1 Ha1)).
    subst h1 c1. unfold Context.WithLogger.
    now rewrite Value_WithValue, ContextFacts.keyEq_refl.
Qed.

Lemma nearest_logger_wins_witness :
  let L1 := Context.CustomLogger "request" in
  let L2 := Context.CustomLogger "job" in
  let h1 := (Context.WithLogger [] Context.Background (Some L1)).1 in
  let c1 := (Context.WithLogger [] Context.Background (Some L1)).2 in
  Context.LoggerFromContext (Context.WithLogger h1 c1 (Some L2)).1
                            (Context.WithLogger h1 c1 (Some L2)).2
  = Some (Some L2, None)
  /\ Context.LoggerFromContext (Context.WithLogger h1 c1 (Some L2)).1 c1
     = Some (Some L1, None).
Proof.
  intros L1 L2 h1 c1.
  apply (nearest_logger_wins [] Context.Background L1 L2).
  - intros a c Hc. discriminate Hc.
  - exact I.
Defined.

(** ** The log file path is never empty *)

Lemma cleanLoop_nonempty (rooted : bool) (es out : list string) :
  Forall (fun e => e <> "") out ->
  Forall (fun e => e <> "") (Filepath.cleanLoop rooted es out).
Proof.
  revert out. induction es as [| e es IH]; intros out Hout;
    cbn [Filepath.cleanLoop].
  - now apply Forall_rev.
  - destruct (e =? "") eqn:He; cbn [orb]; [now apply IH |].
    destruct (e =? "."); [now apply IH |].
    apply String.eqb_neq in He.
    destruct (e =? "..").
    + destruct out as [| o out'].
      * destruct rooted; apply IH; [constructor | now repeat constructor].
      * destruct (o =? ".."); apply IH; [now constructor |].
        now inversion Hout.
    + apply IH. now constructor.
Qed.

Lemma concat_nonempty (xs : list string) :
  xs <> [] -> Forall (fun e => e <> "") xs -> String.concat "/" xs <> "".
Proof.
  intros Hne Hall. destruct xs as [| x xs]; [now destruct Hne |].
  inversion Hall as [| ? ? Hx _]; subst.
  destruct x as [| a r]; [now destruct Hx |].
  destruct (FilepathFacts.concat_head a r xs) as [t ->]. discriminate.
Qed.

Lemma Clean_nonempty (path : string) : Filepath.Clean path <> "".
Proof.
  unfold Filepath.Clean. destruct (path =? ""); [discriminate |].
  destruct (Filepath.rootedPath path); [discriminate |].
  pose proof (cleanLoop_nonempty false (Filepath.split path) []
                                 (List.Forall_nil _)) as Hall.
  destruct (Filepath.cleanLoop false (Filepath.split path) []) as [| x xs];
    [discriminate |].
  now apply concat_nonempty.
Qed.

Lemma logFilePath_nonempty (dir : string) : logFilePath dir <> "".
Proof.
  unfold logFilePath. destruct (dir =? "") eqn:Hd; [discriminate |].
  cbn [Filepath.Join]. rewrite Hd. apply Clean_nonempty.
Qed.

Lemma GetFileWriter_logFilePath (dir : string) :
  GetFileWriter dir
  = Slog.Lumberjack
      {| Slog.Filename := logFilePath dir; Slog.MaxSize := 100;
         Slog.MaxBackups := 5; Slog.MaxAge := 28; Slog.Compress := true |}.
Proof. reflexivity. Qed.

(** Whatever the directory argument, the path given to the file sink is
    not the empty string (on which the rotating writer would choose a
    file of its own in the temporary directory). *)
Theorem log_file_path_never_empty (dir : string) :
  exists path : string,
    path <> ""
    /\ GetFileWriter dir
       = Slog.Lumberjack
           {| Slog.Filename := path; Slog.MaxSize := 100;
              Slog.MaxBackups := 5; Slog.MaxAge := 28;
              Slog.Compress := true |}.
Proof.
  exists (logFilePath dir). split;
    [apply logFilePath_nonempty | apply GetFileWriter_logFilePath].
Qed.

(** ** The zap facade *)

(** [NewAppLogger] panics on a nil configuration and on no other. On a
    configuration it keeps the pointer, names the logger as the
    configuration says, gives both cores the level of the configuration
    (the default level of the package is not used), and writes to the
    path of the configuration as it is, or to ["logs/app.log"] when that
    path is empty. *)
Theorem NewAppLogger_follows_config (config : option AppLog.AppLoggerConfig) :
  (AppLog.NewAppLogger config = Panics <-> config = None)
  /\ forall c : AppLog.AppLoggerConfig,
      config = Some c ->
      exists a : AppLog.appLogger,
        AppLog.NewAppLogger config = Returns a
        /\ AppLog.config a = Some c
        /\ Zap.name (AppLog.Logger a) = AppLog.Name c
        /\ map Zap.enab (Zap.cores (AppLog.Logger a))
           = [AppLog.Level c; AppLog.Level c]
        /\ map Zap.sink (Zap.cores (AppLog.Logger a))
           = [Slog.Lumberjack
                {| Slog.Filename :=
                     if AppLog.FilePath c =? "" then "logs/app.log"
                     else AppLog.FilePath c;
                   Slog.MaxSize := 10; Slog.MaxBackups := 3;
                   Slog.MaxAge := 28; Slog.Compress := false |};
              Slog.Stdout].
Proof.
  split.
  - destruct config; split; intros H; try discriminate H; reflexivity.
  - intros c ->. eexists. split; [reflexivity |]. cbn [AppLog.config AppLog.Logger].
    split; [reflexivity |].
    destruct (AppLog.Name c =? "") eqn:Hn.
    + apply String.eqb_eq in Hn. repeat split. now rewrite Hn.
    + unfold Zap.Named. rewrite Hn. repeat split.
Qed.

Lemma NewAppLogger_follows_config_witness :
  exists a : AppLog.appLogger,
    AppLog.NewAppLogger
      (Some {| AppLog.FilePath := ""; AppLog.Name := "api";
               AppLog.Level := Zap.InfoLevel |}) = Returns a
    /\ Zap.name (AppLog.Logger a) = "api"
    /\ map Zap.enab (Zap.cores (AppLog.Logger a))
       = [Zap.InfoLevel; Zap.InfoLevel].
Proof.
  destruct (NewAppLogger_follows_config
              (Some {| AppLog.FilePath := ""; AppLog.Name := "api";
                       AppLog.Level := Zap.InfoLevel |})) as (_ & H).
  destruct (H _ eq_refl) as (a & Hr & _ & Hn & He & _).
  exists a. split; [exact Hr |]. split; [exact Hn | exact He].
Defined.

(** The configuration that [NewTestAppLogger] records describes the
    logger it returns: given to [NewAppLogger], it yields a logger with
    the same file sink, at the path [logFilePath dir], and the same
    level, debug, on both cores. The name ["test"] is not recorded: that
    second logger has no name. *)
Theorem NewTestAppLogger_config_round_trip (dir : string) :
  exists (c : AppLog.AppLoggerConfig) (a : AppLog.appLogger),
    AppLog.config (AppLog.NewTestAppLogger dir) = Some c
    /\ AppLog.FilePath c = logFilePath dir
    /\ Zap.name (AppLog.Logger (AppLog.NewTestAppLogger dir)) = "test"
    /\ AppLog.NewAppLogger (Some c) = Returns a
    /\ map Zap.sink (Zap.cores (AppLog.Logger a))
       = map Zap.sink (Zap.cores (AppLog.Logger (AppLog.NewTestAppLogger dir)))
    /\ map Zap.enab (Zap.cores (AppLog.Logger a))
       = map Zap.enab (Zap.cores (AppLog.Logger (AppLog.NewTestAppLogger dir)))
    /\ map Zap.enab (Zap.cores (AppLog.Logger a))
       = [Zap.DebugLevel; Zap.DebugLevel]
    /\ Zap.name (AppLog.Logger a) = "".
Proof.
  do 2 eexists. split; [reflexivity |]. split; [reflexivity |].
  split; [reflexivity |]. split; [reflexivity |].
  unfold AppLog.NewTestAppLogger.
  remember (if dir =? "" then DEFAULT_LOG_FILE_PATH
            else Filepath.Join [dir; DEFAULT_LOG_FILE_PATH]) as p eqn:Hp.
  assert (Hne : (p =? "") = false).
  { apply String.eqb_neq. rewrite Hp. apply (logFilePath_nonempty dir). }
  cbn. rewrite Hne. repeat split.
Qed.

(** [GetZapLogger] names the logger as asked and gives both cores the
    same level and encoder configuration: debug and development when
    [INFRA] is the word ["local"] byte for byte, info and production on
    every other value. *)
Theorem GetZapLogger_level_and_name
        (dir namedAs : string) (environ : gmap string string) :
  let log := GetZapLogger dir namedAs environ in
  let local := Getenv environ "INFRA" =? "local" in
  Zap.name log = namedAs
  /\ map Zap.enab (Zap.cores log)
     = (if local then [Zap.DebugLevel; Zap.DebugLevel]
        else [Zap.InfoLevel; Zap.InfoLevel])
  /\ map Zap.encoder (Zap.cores log)
     = (if local
        then [Zap.JSONEncoder Zap.DevelopmentEncoderConfig;
              Zap.ConsoleEncoder Zap.DevelopmentEncoderConfig]
        else [Zap.JSONEncoder Zap.ProductionEncoderConfig;
              Zap.ConsoleEncoder Zap.ProductionEncoderConfig])
  /\ (local = true <-> Getenv environ "INFRA" = "local").
Proof.
  intros log local. subst log local. unfold GetZapLogger.
  rewrite Named_cores. split; [| split; [| split]].
  - unfold Zap.Named. destruct (namedAs =? "") eqn:Hn; [| reflexivity].
    apply String.eqb_eq in Hn. now rewrite Hn.
  - now destruct (_ =? "local").
  - now destruct (_ =? "local").
  - apply String.eqb_eq.
Qed.

Lemma GetZapLogger_level_and_name_witness :
  map Zap.enab (Zap.cores (GetZapLogger "" "api" {[ "INFRA" := "local" ]}))
  = [Zap.DebugLevel; Zap.DebugLevel]
  /\ Zap.name (GetZapLogger "" "api" {[ "INFRA" := "local" ]}) = "api".
Proof.
  destruct (GetZapLogger_level_and_name "" "api" {[ "INFRA" := "local" ]})
    as (Hn & He & _ & Hl).
  rewrite (proj2 Hl eq_refl) in He. split; [exact He | exact Hn].
Defined.

(** ** White space and letter case in the values read *)

Module NormalizeFacts.
Import GoStrings.

Ltac bool_facts H :=
  repeat first [ rewrite orb_true_iff in H | rewrite andb_true_iff in H
               | rewrite N.eqb_eq in H | rewrite N.leb_le in H ].

(** The bytes of a white space rune outside ASCII are all above 127;
    ASCII white space is below. *)
Lemma space2_high (a b : ascii) :
  space2 a b = true -> (128 <= byte a)%N /\ (128 <= byte b)%N.
Proof. unfold space2. intros H. bool_facts H. lia. Qed.

Lemma space3_high (a b c : ascii) :
  space3 a b c = true ->
  (128 <= byte a)%N /\ (128 <= byte b)%N /\ (128 <= byte c)%N.
Proof. unfold space3. cbn. intros H. bool_facts H. lia. Qed.

Lemma asciiSpace_low (a : ascii) : asciiSpace a = true -> (byte a < 128)%N.
Proof. unfold asciiSpace. cbn. intros H. bool_facts H. lia. Qed.

Lemma asciiSpace_not_space2 (a b : ascii) :
  asciiSpace b = true -> space2 a b = false.
Proof.
  intros H%asciiSpace_low. destruct (space2 a b) eqn:E; [| reflexivity].
  apply space2_high in E. lia.
Qed.

Lemma asciiSpace_not_space3_mid (a b c : ascii) :
  asciiSpace b = true -> space3 a b c = false.
Proof.
  intros H%asciiSpace_low. destruct (space3 a b c) eqn:E; [| reflexivity].
  apply space3_high in E. lia.
Qed.

Lemma asciiSpace_not_space3_last (a b c : ascii) :
  asciiSpace c = true -> space3 a b c = false.
Proof.
  intros H%asciiSpace_low. destruct (space3 a b c) eqn:E; [| reflexivity].
  apply space3_high in E. lia.
Qed.

Lemma trimLeft_spaces (sp l : list ascii) :
  forallb asciiSpace sp = true -> trimLeft (sp ++ l)%list = trimLeft l.
Proof.
  induction sp as [| a sp IH]; [reflexivity |]. cbn [forallb].
  intros [Ha Hsp]%andb_true_iff. cbn [app trimLeft]. rewrite Ha. now apply IH.
Qed.

Lemma trimRightRev_spaces (sp l : list ascii) :
  forallb asciiSpace sp = true -> trimRightRev (sp ++ l)%list = trimRightRev l.
Proof.
  induction sp as [| a sp IH]; [reflexivity |]. cbn [forallb].
  intros [Ha Hsp]%andb_true_iff. cbn [app trimRightRev]. rewrite Ha.
  now apply IH.
Qed.

(** White space after the text is left in place by the trim from the
    left, unless the text is white space throughout. *)
Lemma trimLeft_app_spaces (sp : list ascii) :
  forallb asciiSpace sp = true ->
  forall n l, List.length l <= n ->
    trimLeft (l ++ sp)%list =
      match trimLeft l with
      | [] => []
      | t => (t ++ sp)%list
      end.
Proof.
  intros Hsp. induction n as [| n IH]; intros l Hl.
  - destruct l; [| cbn in Hl; lia]. cbn [app trimLeft].
    now rewrite <- (app_nil_r sp), trimLeft_spaces.
  - destruct l as [| a r].
    { cbn [app trimLeft]. now rewrite <- (app_nil_r sp), trimLeft_spaces. }
    cbn [List.length] in Hl. cbn [app trimLeft].
    destruct (asciiSpace a) eqn:Ha; [apply IH; lia |].
    destruct r as [| b r2].
    { cbn [app]. destruct sp as [| b sp2]; [reflexivity |].
      cbn [forallb] in Hsp. apply andb_true_iff in Hsp as [Hb Hsp2].
      rewrite (asciiSpace_not_space2 a b Hb).
      destruct sp2 as [| c sp3]; [reflexivity |].
      now rewrite (asciiSpace_not_space3_mid a b c Hb). }
    cbn [List.length] in Hl. cbn [app].
    destruct (space2 a b) eqn:Hab; [apply IH; lia |].
    destruct r2 as [| c r3].
    { cbn [app]. destruct sp as [| c sp2]; [reflexivity |].
      cbn [forallb] in Hsp. apply andb_true_iff in Hsp as [Hc Hsp2].
      now rewrite (asciiSpace_not_space3_last a b c Hc). }
    cbn [List.length] in Hl. cbn [app].
    destruct (space3 a b c) eqn:Habc; [apply IH; lia | reflexivity].
Qed.

Lemma list_ascii_of_string_app (a b : string) :
  list_ascii_of_string (a ++ b)
  = (list_ascii_of_string a ++ list_ascii_of_string b)%list.
Proof.
  induction a as [| x a IH]; [reflexivity |].
  change (String x a ++ b) with (String x (a ++ b)).
  cbn [list_ascii_of_string app]. now rewrite IH.
Qed.

Lemma allSpace_forallb (s : string) :
  allSpace s = forallb asciiSpace (list_ascii_of_string s).
Proof. induction s as [| a s IH]; cbn; [reflexivity | now rewrite IH]. Qed.

Lemma TrimSpace_padded (l v r : string) :
  allSpace l = true -> allSpace r = true ->
  TrimSpace (l ++ v ++ r) = TrimSpace v.
Proof.
  intros Hl Hr. rewrite allSpace_forallb in Hl, Hr.
  unfold TrimSpace. rewrite !list_ascii_of_string_app.
  rewrite trimLeft_spaces by assumption.
  rewrite (trimLeft_app_spaces _ Hr _ _ (le_n _)).
  destruct (trimLeft (list_ascii_of_string v)) as [| x t] eqn:Ht;
    [reflexivity |].
  rewrite rev_app_distr, trimRightRev_spaces; [reflexivity |].
  apply forallb_forall. intros c Hc%in_rev.
  now apply (proj1 (forallb_forall _ _) Hr).
Qed.

(** [lowerByte] moves the bytes of 'A'..'Z' only, and within the
    letters. *)
Lemma byte_lowerByte (a : ascii) :
  byte (lowerByte a) = byte a
  \/ ((65 <= byte a <= 90)%N /\ byte (lowerByte a) = (byte a + 32)%N).
Proof.
  unfold lowerByte. cbn zeta.
  destruct ((65 <=? byte a)%N && (byte a <=? 90)%N) eqn:H; [| now left].
  apply andb_true_iff in H as [H1%N.leb_le H2%N.leb_le].
  right. split; [lia |]. unfold byte at 1.
  apply N_ascii_embedding. lia.
Qed.

Lemma lowerByte_high (a : ascii) : (128 <= byte a)%N -> lowerByte a = a.
Proof.
  intros H. unfold lowerByte. cbn zeta.
  destruct (N.leb_spec (byte a) 90); [lia |]. now rewrite andb_false_r.
Qed.

Lemma lowerByte_low (a : ascii) :
  (byte a < 128)%N -> (byte (lowerByte a) < 128)%N.
Proof. destruct (byte_lowerByte a) as [-> | [? ->]]; lia. Qed.

Lemma asciiSpace_lowerByte (a : ascii) :
  asciiSpace (lowerByte a) = asciiSpace a.
Proof.
  unfold asciiSpace. cbn zeta.
  destruct (byte_lowerByte a) as [-> | [Hx ->]]; [reflexivity |].
  revert Hx. generalize (byte a). intros x Hx.
  destruct (N.leb_spec 9 x), (N.leb_spec x 13), (N.eqb_spec x 32),
    (N.leb_spec 9 (x + 32)), (N.leb_spec (x + 32) 13),
    (N.eqb_spec (x + 32) 32); cbn; try reflexivity; lia.
Qed.

Lemma space2_lowerByte (a b : ascii) :
  space2 (lowerByte a) (lowerByte b) = space2 a b.
Proof.
  destruct (N.lt_ge_cases (byte a) 128) as [Ha | Ha],
           (N.lt_ge_cases (byte b) 128) as [Hb | Hb];
    try (rewrite (lowerByte_high a Ha), (lowerByte_high b Hb); reflexivity);
    try pose proof (lowerByte_low a Ha); try pose proof (lowerByte_low b Hb);
    destruct (space2 a b) eqn:E1; try (apply space2_high in E1; lia);
    destruct (space2 (lowerByte a) (lowerByte b)) eqn:E2;
    try reflexivity; apply space2_high in E2; lia.
Qed.

Lemma space3_lowerByte (a b c : ascii) :
  space3 (lowerByte a) (lowerByte b) (lowerByte c) = space3 a b c.
Proof.
  destruct (N.lt_ge_cases (byte a) 128) as [Ha | Ha],
           (N.lt_ge_cases (byte b) 128) as [Hb | Hb],
           (N.lt_ge_cases (byte c) 128) as [Hc | Hc];
    try (rewrite (lowerByte_high a Ha), (lowerByte_high b Hb),
           (lowerByte_high c Hc); reflexivity);
    try pose proof (lowerByte_low a Ha); try pose proof (lowerByte_low b Hb);
    try pose proof (lowerByte_low c Hc);
    destruct (space3 a b c) eqn:E1; try (apply space3_high in E1; lia);
    destruct (space3 (lowerByte a) (lowerByte b) (lowerByte c)) eqn:E2;
    try reflexivity; apply space3_high in E2; lia.
Qed.

Lemma trimLeft_step (a : ascii) (r : list ascii) :
  trimLeft (a :: r) =
    if asciiSpace a then trimLeft r
    else match r with
         | b :: r2 =>
             if space2 a b then trimLeft r2
             else match r2 with
                  | c :: r3 => if space3 a b c then trimLeft r3 else a :: r
                  | [] => a :: r
                  end
         | [] => a :: r
         end.
Proof. reflexivity. Qed.

Lemma trimRightRev_step (a : ascii) (r : list ascii) :
  trimRightRev (a :: r) =
    if asciiSpace a then trimRightRev r
    else match r with
         | b :: r2 =>
             if space2 b a then trimRightRev r2
             else match r2 with
                  | c :: r3 => if space3 c b a then trimRightRev r3 else a :: r
                  | [] => a :: r
                  end
         | [] => a :: r
         end.
Proof. reflexivity. Qed.

Lemma trimLeft_lower (n : nat) :
  forall l, List.length l <= n ->
    trimLeft (map lowerByte l) = map lowerByte (trimLeft l).
Proof.
  induction n as [| n IH]; intros l Hl.
  - destruct l; [reflexivity | cbn in Hl; lia].
  - destruct l as [| a r]; [reflexivity |].
    cbn [map List.length] in *. rewrite !trimLeft_step, asciiSpace_lowerByte.
    destruct (asciiSpace a); [apply IH; lia |].
    destruct r as [| b r2]; [reflexivity |].
    cbn [map List.length] in *. rewrite space2_lowerByte.
    destruct (space2 a b); [apply IH; lia |].
    destruct r2 as [| c r3]; [reflexivity |].
    cbn [map List.length] in *. rewrite space3_lowerByte.
    destruct (space3 a b c); [apply IH; lia | reflexivity].
Qed.

Lemma trimRightRev_lower (n : nat) :
  forall l, List.length l <= n ->
    trimRightRev (map lowerByte l) = map lowerByte (trimRightRev l).
Proof.
  induction n as [| n IH]; intros l Hl.
  - destruct l; [reflexivity | cbn in Hl; lia].
  - destruct l as [| a r]; [reflexivity |].
    cbn [map List.length] in *.
    rewrite !trimRightRev_step, asciiSpace_lowerByte.
    destruct (asciiSpace a); [apply IH; lia |].
    destruct r as [| b r2]; [reflexivity |].
    cbn [map List.length] in *. rewrite space2_lowerByte.
    destruct (space2 b a); [apply IH; lia |].
    destruct r2 as [| c r3]; [reflexivity |].
    cbn [map List.length] in *. rewrite space3_lowerByte.
    destruct (space3 c b a); [apply IH; lia | reflexivity].
Qed.

Lemma ToLower_as_map (s : string) :
  ToLower s = string_of_list_ascii (map lowerByte (list_ascii_of_string s)).
Proof. induction s as [| a s IH]; cbn; [reflexivity | now rewrite IH]. Qed.

(** Trimming and lowering can be done in either order. *)
Lemma TrimSpace_ToLower (s : string) :
  TrimSpace (ToLower s) = ToLower (TrimSpace s).
Proof.
  rewrite (ToLower_as_map (TrimSpace s)), (ToLower_as_map s).
  unfold TrimSpace. rewrite !list_ascii_of_string_of_list_ascii.
  f_equal.
  rewrite (trimLeft_lower _ _ (le_n _)), <- map_rev.
  rewrite (trimRightRev_lower _ _ (le_n _)), <- map_rev.
  reflexivity.
Qed.

End NormalizeFacts.

Lemma Getenv_insert (environ : gmap string string) (name x n : string) :
  Getenv (<[name := x]> environ) n
  = if decide (name = n) then x else Getenv environ n.
Proof.
  unfold Getenv. rewrite lookup_insert. now destruct (decide (name = n)).
Qed.

(** Two values with the same normal form, stored in the same variable,
    give the same configuration; as format words they give the same
    logger. *)
Lemma same_normal_form (environ : gmap string string) (name x y : string)
      (c : Config) :
  normalized x = normalized y ->
  defaultConfig (<[name := x]> environ) = defaultConfig (<[name := y]> environ)
  /\ build (WithFormat x c) = build (WithFormat y c).
Proof.
  intros Hxy. split.
  - assert (H : forall n, normalized (Getenv (<[name := x]> environ) n)
                          = normalized (Getenv (<[name := y]> environ) n)).
    { intros n. rewrite !Getenv_insert. now destruct (decide (name = n)). }
    rewrite !defaultConfig_posture.
    unfold developmentPosture, denotesDevelopment, denotesLocal.
    now rewrite !H.
  - rewrite !build_total. unfold handlerFor. cbn [Format WithFormat].
    now rewrite Hxy.
Qed.

(** ASCII white space around the value of [ENV], [GO_ENV] or [INFRA]
    (or of any other variable) does not change the configuration that
    [defaultConfig] resolves, and around a format word it does not change
    the logger that [build] makes. *)
Theorem surrounding_white_space_ignored
        (environ : gmap string string) (name l v r : string) (c : Config) :
  allSpace l = true -> allSpace r = true ->
  defaultConfig (<[name := l ++ v ++ r]> environ)
  = defaultConfig (<[name := v]> environ)
  /\ build (WithFormat (l ++ v ++ r) c) = build (WithFormat v c).
Proof.
  intros Hl Hr. apply same_normal_form. unfold normalized.
  now rewrite NormalizeFacts.TrimSpace_padded.
Qed.

Lemma surrounding_white_space_ignored_witness :
  defaultConfig (<["INFRA" := "   " ++ "Local" ++ "  "]> ∅)
  = defaultConfig (<["INFRA" := "Local"]> ∅).
Proof.
  apply (surrounding_white_space_ignored
           ∅ "INFRA" _ "Local" "  " (defaultConfig ∅)); reflexivity.
Defined.

(** Two values that differ in the case of ASCII letters only (they have
    the same lower-case form) are taken alike by [defaultConfig] and, as
    format words, by [build]. *)
Theorem letter_case_ignored
        (environ : gmap string string) (name v1 v2 : string) (c : Config) :
  GoStrings.ToLower v1 = GoStrings.ToLower v2 ->
  defaultConfig (<[name := v1]> environ)
  = defaultConfig (<[name := v2]> environ)
  /\ build (WithFormat v1 c) = build (WithFormat v2 c).
Proof.
  intros H. apply same_normal_form. unfold normalized.
  now rewrite <- !NormalizeFacts.TrimSpace_ToLower, H.
Qed.

Lemma letter_case_ignored_witness :
  build (WithFormat "CoNsOlE" (defaultConfig ∅))
  = build (WithFormat "console" (defaultConfig ∅)).
Proof.
  apply (letter_case_ignored ∅ "ENV" "CoNsOlE" "console" (defaultConfig ∅)).
  reflexivity.
Defined.

(** ** Directories that are not written cleanly *)

Module CleanFacts.
Import Filepath FilepathFacts.

Lemma nameOrSkipped_noSlash (es : list string) :
  forallb nameOrSkipped es = true -> forallb noSlash es = true.
Proof.
  induction es as [| e es IH]; [reflexivity |]. cbn [forallb].
  rewrite !andb_true_iff. intros [He Hes]. split; [| now apply IH].
  unfold nameOrSkipped, isName in He.
  rewrite !orb_true_iff, !andb_true_iff in He.
  destruct He as [[He | He] | He].
  - tauto.
  - apply String.eqb_eq in He. now subst.
  - apply String.eqb_eq in He. now subst.
Qed.

Lemma isName_not_skipped (e : string) :
  isName e = true -> (e =? "") = false /\ (e =? ".") = false /\ (e =? "..") = false.
Proof.
  unfold isName. rewrite !andb_true_iff, !negb_true_iff. tauto.
Qed.

Lemma cleanLoop_skips (rooted : bool) (es : list string) :
  forallb nameOrSkipped es = true ->
  forall out, cleanLoop rooted es out = (rev out ++ List.filter isName es)%list.
Proof.
  induction es as [| e es IH]; intros Hes out; cbn [cleanLoop List.filter].
  - now rewrite app_nil_r.
  - cbn [forallb] in Hes. apply andb_true_iff in Hes as [He Hes].
    destruct (isName e) eqn:Hn.
    + destruct (isName_not_skipped e Hn) as (H0 & H1 & H2).
      rewrite H0, H1, H2. cbn [orb]. rewrite (IH Hes). cbn [rev].
      now rewrite <- app_assoc.
    + unfold nameOrSkipped in He. rewrite Hn in He. cbn [orb] in He.
      rewrite He. now apply IH.
Qed.

Lemma filter_isName_names (es : list string) :
  forallb isName (List.filter isName es) = true.
Proof.
  induction es as [| e es IH]; [reflexivity |]. cbn [List.filter].
  destruct (isName e) eqn:He; [| exact IH]. cbn [forallb]. now rewrite He.
Qed.

(** [Clean] drops the empty elements and the [.] elements of a path
    that starts with a name, rooted or not. *)
Lemma Clean_skips (rooted : bool) (a : ascii) (r : string)
      (rest : list string) :
  isName (String a r) = true ->
  forallb nameOrSkipped rest = true ->
  Clean ((if rooted then "/" else "")
         ++ String.concat "/" (String a r :: rest))
  = (if rooted then "/" else "")
    ++ String.concat "/" (String a r :: List.filter isName rest).
Proof.
  intros Hx Hrest.
  assert (Hall : forallb nameOrSkipped (String a r :: rest) = true).
  { cbn [forallb]. unfold nameOrSkipped at 1. now rewrite Hx, Hrest. }
  assert (Ha : isSlash a = false).
  { unfold isName in Hx. rewrite !andb_true_iff in Hx.
    destruct Hx as [[[Hs _] _] _]. cbn [noSlash] in Hs.
    apply andb_true_iff in Hs as [Hs _]. now apply negb_true_iff in Hs. }
  assert (Hs : splitFrom "" (String.concat "/" (String a r :: rest))
               = String a r :: rest).
  { pose proof (nameOrSkipped_noSlash _ Hall) as Hn. cbn [forallb] in Hn.
    apply andb_true_iff in Hn as [H1 H2].
    now rewrite splitFrom_concat. }
  pose proof (cleanLoop_skips rooted _ Hall []) as Hc.
  cbn [List.filter] in Hc. rewrite Hx in Hc. cbn [rev app] in Hc.
  destruct (concat_head a r rest) as [t Ht].
  remember (String.concat "/" (String a r :: rest)) as p eqn:Hp.
  assert (Hp1 : (p =? "") = false) by (rewrite Ht; reflexivity).
  assert (Hp2 : rootedPath p = false) by (rewrite Ht; exact Ha).
  unfold Clean, split. destruct rooted.
  - change ("/" ++ p) with (String "/"%char p).
    cbn [String.eqb rootedPath splitFrom].
    change (isSlash "/"%char) with true. cbn match.
    rewrite Hs.
    change (cleanLoop true ("" :: String a r :: rest) [])
      with (cleanLoop true (String a r :: rest) []).
    now rewrite Hc.
  - change ("" ++ p) with p.
    now rewrite Hp1, Hp2, Hs, Hc.
Qed.

End CleanFacts.

(** A directory argument that starts with a name and contains doubled
    separators, a trailing separator or [.] elements gives the file sink
    of the directory written without them: [GetFileWriter "data/"],
    [GetFileWriter "data/./"] and [GetFileWriter "data"] are the same
    writer. *)
Theorem GetFileWriter_cleans_directory
        (rooted : bool) (x : string) (es : list string) :
  Filepath.isName x = true ->
  forallb Filepath.nameOrSkipped es = true ->
  let root := if rooted then "/" else "" in
  GetFileWriter (root ++ String.concat "/" (x :: es))
  = GetFileWriter
      (root ++ String.concat "/" (x :: List.filter Filepath.isName es))
  /\ logFilePath (root ++ String.concat "/" (x :: es))
     = root ++ String.concat "/" (x :: List.filter Filepath.isName es)
       ++ "/logs/app.log".
Proof.
  intros Hx Hes root.
  assert (Hpath : logFilePath (root ++ String.concat "/" (x :: es))
                  = root ++ String.concat "/" (x :: List.filter Filepath.isName es)
                    ++ "/logs/app.log").
  { destruct x as [| a r]; [discriminate Hx |].
    unfold logFilePath.
    assert (Hd : (root ++ String.concat "/" (String a r :: es) =? "") = false).
    { apply String.eqb_neq. subst root.
      destruct (FilepathFacts.concat_head a r es) as [t ->].
      now destruct rooted. }
    rewrite Hd. cbn [Filepath.Join]. rewrite Hd.
    assert (Hjoin : String.concat "/" [root ++ String.concat "/" (String a r :: es);
                                       "logs/app.log"]
                    = root ++ String.concat "/"
                               (String a r :: es ++ ["logs"; "app.log"])).
    { change (es ++ ["logs"; "app.log"])%list
        with (es ++ ["logs"] ++ ["app.log"])%list.
      rewrite app_assoc, !FilepathFacts.concat_snoc. cbn [String.concat].
      now rewrite !FilepathFacts.append_assoc. }
    rewrite Hjoin. subst root. rewrite CleanFacts.Clean_skips.
    - rewrite List.filter_app.
      change (List.filter Filepath.isName ["logs"; "app.log"])
        with ["logs"; "app.log"].
      change (List.filter Filepath.isName es ++ ["logs"; "app.log"])%list
        with (List.filter Filepath.isName es ++ ["logs"] ++ ["app.log"])%list.
      rewrite app_assoc, !FilepathFacts.concat_snoc.
      now rewrite !FilepathFacts.append_assoc.
    - exact Hx.
    - rewrite forallb_app, Hes. reflexivity. }
  split; [| exact Hpath].
  assert (Hclean : logFilePath (root ++ String.concat "/"
                                  (x :: List.filter Filepath.isName es))
                   = (root ++ String.concat "/"
                        (x :: List.filter Filepath.isName es))
                     ++ "/logs/app.log").
  { unfold logFilePath.
    pose proof (FilepathFacts.Join_names rooted x
                  (List.filter Filepath.isName es)) as HJ.
    cbn zeta in HJ. fold root in HJ. rewrite HJ.
    - destruct x as [| a r]; [discriminate Hx |].
      assert (Hd : (root ++ String.concat "/"
                      (String a r :: List.filter Filepath.isName es) =? "")
                   = false); [| now rewrite Hd].
      apply String.eqb_neq. subst root.
      destruct (FilepathFacts.concat_head
                  a r (List.filter Filepath.isName es)) as [t ->].
      now destruct rooted.
    - cbn [forallb]. now rewrite Hx, CleanFacts.filter_isName_names. }
  rewrite !GetFileWriter_logFilePath, Hpath, Hclean.
  now rewrite FilepathFacts.append_assoc.
Qed.

Lemma GetFileWriter_cleans_directory_witness :
  GetFileWriter "/srv//app/./" = GetFileWriter "/srv/app".
Proof.
  apply (GetFileWriter_cleans_directory true "srv" [""; "app"; "."; ""]);
    reflexivity.
Defined.

(** ** The branch for a failed construction *)

(** [build] returns no error, so the branch that the entry points have
    for an error of [Init] is never taken: in every sequence of calls no
    call panics, [initErr] stays nil, [Init] returns nil, every entry
    point returns the singleton, and the package itself prints nothing,
    neither the notice of that branch nor anything else, on standard
    output or standard error. *)
Theorem fallback_never_taken
        (c : gmap string string * Call)
        (cs : list (gmap string string * Call)) :
  exists (s : State) (rs : list Result),
    run build (c :: cs) initial = Returns (s, rs)
    /\ initErr s = None
    /\ output s = Slog.noOutput
    /\ Forall (fun r => match r with
                        | InitReturned err => err = None
                        | LoggerReturned l => base s = Some l
                        end) rs.
Proof.
  assert (H1 : exists s1 r1 l,
             call build c initial = Returns (s1, r1) /\ ready l s1
             /\ output s1 = Slog.noOutput /\ handsBack l r1).
  { destruct c as [environ [opts | | dir | dir]]; unfold call; cbn [fst snd];
      unfold GetSlogLogger, GetSlogFileLogger, GetSlogMultiLogger, afterInit,
        Init; cbn [onceDone base initial]; rewrite build_total;
      cbn [initErr base]; do 3 eexists; (split; [reflexivity |]);
      unfold ready; cbn; now repeat split. }
  destruct H1 as (s1 & r1 & l & Hc & Hr & Ho & Hh).
  destruct (run_ready build cs s1 l Hr) as (rs & Hrun & _ & Hall).
  exists s1, (r1 :: rs). cbn [run]. rewrite Hc, Hrun.
  destruct Hr as (_ & Hb & He).
  split; [reflexivity |]. split; [exact He |]. split; [exact Ho |].
  apply List.Forall_impl with (P := handsBack l); [| now constructor].
  intros [err | l'] Hr; cbn in Hr; [exact Hr | now rewrite Hb, Hr].
Qed.
